(** * YOLOv8 trainer panel: tag statistics, view filters, job outcome
      tracking and the empty-menu probe

    A shallow embedding of [ModelFineTunerPanel.tsx] and
    [OperatorButtonWithWarning.tsx].

    Conventions.
    - Sample counts are JavaScript numbers holding integers; they are
      modelled as [Z] (exact below 2^53).
    - [tagCounts] is a JS object used as a dictionary: a [gmap string Z].
    - React state is an explicit record; every handler is a function from
      state to state; timers ([setInterval], [setTimeout]) are entries of a
      timer table keyed by their handle, and a timer firing is an event. *)

From Stdlib Require Import ZArith QArith Bool List String Lia.
From stdpp Require Import gmap strings list fin_maps.
Import ListNotations.

#[local] Open Scope string_scope.
#[local] Open Scope Z_scope.

(* ===================================================================== *)
(** ** JavaScript numbers, as far as the panel uses them                 *)
(* ===================================================================== *)

(** [x || 0] on a possibly missing integer: [undefined], [null] and [0]
    all give [0], any other integer gives itself. *)
Definition or_zero (x : option Z) : Z := default 0 x.

(** The result of a JS arithmetic expression: a finite rational, an
    infinity or NaN.  Only division can leave the finite values here. *)
Inductive JsNum : Type :=
  | Fin (q : Q)
  | PosInf
  | NegInf
  | NaN.

Definition js_of_Z (z : Z) : JsNum := Fin (inject_Z z).

Definition q_sign (q : Q) : comparison := (Qnum q ?= 0)%Z.

(** [a / b]: a zero divisor gives an infinity or NaN, never an exception. *)
Definition js_div (a b : JsNum) : JsNum :=
  match a, b with
  | Fin x, Fin y =>
      match q_sign y with
      | Eq => match q_sign x with Eq => NaN | Gt => PosInf | Lt => NegInf end
      | _ => Fin (x / y)%Q
      end
  | NaN, _ | _, NaN => NaN
  | Fin _, _ => Fin 0%Q
  | PosInf, Fin y => match q_sign y with Lt => NegInf | _ => PosInf end
  | NegInf, Fin y => match q_sign y with Lt => PosInf | _ => NegInf end
  | _, _ => NaN
  end.

Definition js_mul (a b : JsNum) : JsNum :=
  match a, b with
  | Fin x, Fin y => Fin (x * y)%Q
  | NaN, _ | _, NaN => NaN
  | Fin x, PosInf | PosInf, Fin x =>
      match q_sign x with Eq => NaN | Gt => PosInf | Lt => NegInf end
  | Fin x, NegInf | NegInf, Fin x =>
      match q_sign x with Eq => NaN | Gt => NegInf | Lt => PosInf end
  | PosInf, PosInf | NegInf, NegInf => PosInf
  | _, _ => NegInf
  end.

Definition is_finite (n : JsNum) : bool :=
  match n with Fin _ => true | _ => false end.

(* ===================================================================== *)
(** ** Tag statistics ([tagStats], [isReadyToTrain], the four ratios)    *)
(* ===================================================================== *)

Record TagStats : Type := mkTagStats {
  train_count : Z;
  val_count : Z;
  both_count : Z;
  total_count : Z;
  untagged_count : Z
}.

(** The body of the [useMemo] that computes [tagStats]; it is the same in
    both versions of the panel. *)
Definition tagStats (tagCounts : gmap string Z) (totalSampleCount : option Z)
  : TagStats :=
  let trainCount := or_zero (tagCounts !! "train") in
  let valCount := or_zero (tagCounts !! "val") in
  let totalCount := or_zero totalSampleCount in
  let bothCount := Z.max 0 (trainCount + valCount - totalCount) in
  let trainOnlyCount := trainCount - bothCount in
  let valOnlyCount := valCount - bothCount in
  let taggedCount := trainOnlyCount + valOnlyCount + bothCount in
  let untaggedCount := Z.max 0 (totalCount - taggedCount) in
  {| train_count := trainOnlyCount;
     val_count := valOnlyCount;
     both_count := bothCount;
     total_count := totalCount;
     untagged_count := untaggedCount |}.

(** The snapshot in which the aggregate reports [train] and [val] samples. *)
Definition snapshot (train val : Z) : gmap string Z :=
  <["train" := train]> (<["val" := val]> ∅).

(** [tagStats.total_count > 0 ? (count / tagStats.total_count) * 100 : 0],
    together with the list of divisors the evaluation divided by. *)
Definition ratio (count total : Z) : JsNum * list Z :=
  if 0 <? total
  then (js_mul (js_div (js_of_Z count) (js_of_Z total)) (js_of_Z 100), [total])
  else (js_of_Z 0, []).

Definition trainRatio (st : TagStats) := ratio (train_count st) (total_count st).
Definition valRatio (st : TagStats) := ratio (val_count st) (total_count st).
Definition bothRatio (st : TagStats) := ratio (both_count st) (total_count st).
Definition untaggedRatio (st : TagStats) :=
  ratio (untagged_count st) (total_count st).

Definition isReadyToTrain (st : TagStats) : bool :=
  ((0 <? train_count st) || (0 <? both_count st))
  && ((0 <? val_count st) || (0 <? both_count st)).

(** What the guard of a ratio promises about its evaluation [r]: every
    divisor it divided by is non-zero, the value is finite, it is the
    constant 0 with no division when the total is 0, the quotient times
    100 when the total is positive, and it divides only then. *)
Definition ratioGuarded (count total : Z) (r : JsNum * list Z) : Prop :=
  Forall (fun d => d <> 0) (snd r)
  /\ is_finite (fst r) = true
  /\ (total = 0 -> r = (js_of_Z 0, []))
  /\ (0 < total ->
      r = (Fin (inject_Z count / inject_Z total * inject_Z 100)%Q, [total]))
  /\ (snd r <> [] -> 0 < total).

(* ===================================================================== *)
(** ** View filter stages ([handleFilterByTag])                          *)
(* ===================================================================== *)

(** A keyword argument value of a stage: a list of tags or a boolean. *)
Inductive KwValue : Type :=
  | KwTags (tags : list string)
  | KwBool (b : bool).

Record Stage : Type := mkStage {
  _cls : string;
  kwargs : list (string * KwValue)
}.

Definition MatchTags : string := "fiftyone.core.stages.MatchTags".

(** The argument [handleFilterByTag] hands to [setView]; [None] is the
    [null] tag. *)
Definition filterStages (tag : option string) : list Stage :=
  match tag with
  | None => []
  | Some t =>
      if String.eqb t "untagged" then
        [ {| _cls := MatchTags;
             kwargs := [("tags", KwTags ["train"; "val"]); ("bool", KwBool false)] |} ]
      else if String.eqb t "both" then
        [ {| _cls := MatchTags; kwargs := [("tags", KwTags ["train"])] |};
          {| _cls := MatchTags; kwargs := [("tags", KwTags ["val"])] |} ]
      else
        [ {| _cls := MatchTags; kwargs := [("tags", KwTags [t])] |} ]
  end.

(** Reading a stage: the value of its ["tags"] and ["bool"] arguments. *)
Fixpoint kwarg (name : string) (kw : list (string * KwValue)) : option KwValue :=
  match kw with
  | [] => None
  | (n, v) :: kw => if String.eqb n name then Some v else kwarg name kw
  end.

(** A stage that keeps the samples carrying tag [t] and says nothing
    about other tags: [MatchTags] over [[t]] with no ["bool"] argument. *)
Definition matchesOnlyTag (t : string) (st : Stage) : Prop :=
  _cls st = MatchTags
  /\ kwarg "tags" (kwargs st) = Some (KwTags [t])
  /\ kwarg "bool" (kwargs st) = None.

(** A stage that keeps the samples carrying none of [ts]: [MatchTags]
    over [ts] with ["bool"] set to [false]. *)
Definition excludesTags (ts : list string) (st : Stage) : Prop :=
  _cls st = MatchTags
  /\ kwarg "tags" (kwargs st) = Some (KwTags ts)
  /\ kwarg "bool" (kwargs st) = Some (KwBool false).

(* ===================================================================== *)
(** ** The panel's React state ([ModelFineTunerPanel])                   *)
(* ===================================================================== *)

Inductive Tab : Type := TrainTab | ApplyTab.

(** The two jobs the panel can submit. *)
Inductive Job : Type := Train | Apply.

(** The form inputs; [parseInt] of a text box is [None] when it is NaN. *)
Record FormState : Type := mkForm {
  selectedField : string;
  weightsPath : string;
  exportUri : string;
  epochs : option Z;
  deviceIndex : option Z;
  applyWeightsPath : string;
  applyField : string;
  applyDeviceIndex : option Z
}.

(** [OperatorExecutionOption]: only [isDelegated] is read. *)
Record ExecutionOption : Type := mkOption { isDelegated : bool }.

(** The response handed to [onSuccess]: [response?.delegated] and
    [response?.result?.id?.$oid]. *)
Record Response : Type := mkResponse {
  delegated : bool;
  operation_id : option string
}.

Definition ErrorInfo : Type := string.

Inductive Payload : Type :=
  | PResponse (r : option Response)
  | POperationId (oid : option string).

Inductive LogEntry : Type :=
  | ConsoleLog (msg : string) (arg : option Payload)
  | ConsoleError (msg : string) (err : ErrorInfo).

Record PanelState : Type := mkPanel {
  tagCounts : gmap string Z;
  totalSampleCount : option Z;
  view : list Stage;
  activeTab : Tab;
  form : FormState;
  isTraining : bool;
  isApplying : bool;
  showSuccessOverlay : bool;
  successMessage : string;
  countdown : Z;
  (** running [setInterval] countdowns: handle -> the closure's [count] *)
  intervals : gmap nat Z;
  nextHandle : nat;
  console : list LogEntry
}.

Definition initialForm : FormState :=
  {| selectedField := "ground_truth";
     weightsPath := "gs://voxel51-demo-fiftyone-ai/yolo/yolov8n.pt";
     exportUri := "gs://voxel51-demo-fiftyone-ai/yolo/yolov8n_finetuned.pt";
     epochs := Some 1;
     deviceIndex := Some 0;
     applyWeightsPath := "gs://voxel51-demo-fiftyone-ai/yolo/yolov8n_finetuned.pt";
     applyField := "predictions";
     applyDeviceIndex := Some 0 |}.

(** The state of a freshly mounted panel; timer handles start at 1. *)
Definition initialPanel : PanelState :=
  {| tagCounts := ∅;
     totalSampleCount := None;
     view := [];
     activeTab := TrainTab;
     form := initialForm;
     isTraining := false;
     isApplying := false;
     showSuccessOverlay := false;
     successMessage := "";
     countdown := 5;
     intervals := ∅;
     nextHandle := 1%nat;
     console := [] |}.

(** *** State setters *)

Definition setTagCounts (m : gmap string Z) (s : PanelState) : PanelState :=
  mkPanel m (totalSampleCount s) (view s) (activeTab s) (form s)
    (isTraining s) (isApplying s) (showSuccessOverlay s) (successMessage s)
    (countdown s) (intervals s) (nextHandle s) (console s).

Definition setTotalSampleCount (n : option Z) (s : PanelState) : PanelState :=
  mkPanel (tagCounts s) n (view s) (activeTab s) (form s)
    (isTraining s) (isApplying s) (showSuccessOverlay s) (successMessage s)
    (countdown s) (intervals s) (nextHandle s) (console s).

Definition setView (v : list Stage) (s : PanelState) : PanelState :=
  mkPanel (tagCounts s) (totalSampleCount s) v (activeTab s) (form s)
    (isTraining s) (isApplying s) (showSuccessOverlay s) (successMessage s)
    (countdown s) (intervals s) (nextHandle s) (console s).

Definition setActiveTab (t : Tab) (s : PanelState) : PanelState :=
  mkPanel (tagCounts s) (totalSampleCount s) (view s) t (form s)
    (isTraining s) (isApplying s) (showSuccessOverlay s) (successMessage s)
    (countdown s) (intervals s) (nextHandle s) (console s).

Definition setForm (f : FormState) (s : PanelState) : PanelState :=
  mkPanel (tagCounts s) (totalSampleCount s) (view s) (activeTab s) f
    (isTraining s) (isApplying s) (showSuccessOverlay s) (successMessage s)
    (countdown s) (intervals s) (nextHandle s) (console s).

Definition setIsTraining (b : bool) (s : PanelState) : PanelState :=
  mkPanel (tagCounts s) (totalSampleCount s) (view s) (activeTab s) (form s)
    b (isApplying s) (showSuccessOverlay s) (successMessage s)
    (countdown s) (intervals s) (nextHandle s) (console s).

Definition setIsApplying (b : bool) (s : PanelState) : PanelState :=
  mkPanel (tagCounts s) (totalSampleCount s) (view s) (activeTab s) (form s)
    (isTraining s) b (showSuccessOverlay s) (successMessage s)
    (countdown s) (intervals s) (nextHandle s) (console s).

Definition setShowSuccessOverlay (b : bool) (s : PanelState) : PanelState :=
  mkPanel (tagCounts s) (totalSampleCount s) (view s) (activeTab s) (form s)
    (isTraining s) (isApplying s) b (successMessage s)
    (countdown s) (intervals s) (nextHandle s) (console s).

Definition setSuccessMessage (m : string) (s : PanelState) : PanelState :=
  mkPanel (tagCounts s) (totalSampleCount s) (view s) (activeTab s) (form s)
    (isTraining s) (isApplying s) (showSuccessOverlay s) m
    (countdown s) (intervals s) (nextHandle s) (console s).

Definition setCountdown (c : Z) (s : PanelState) : PanelState :=
  mkPanel (tagCounts s) (totalSampleCount s) (view s) (activeTab s) (form s)
    (isTraining s) (isApplying s) (showSuccessOverlay s) (successMessage s)
    c (intervals s) (nextHandle s) (console s).

Definition withIntervals (t : gmap nat Z) (s : PanelState) : PanelState :=
  mkPanel (tagCounts s) (totalSampleCount s) (view s) (activeTab s) (form s)
    (isTraining s) (isApplying s) (showSuccessOverlay s) (successMessage s)
    (countdown s) t (nextHandle s) (console s).

Definition withNextHandle (n : nat) (s : PanelState) : PanelState :=
  mkPanel (tagCounts s) (totalSampleCount s) (view s) (activeTab s) (form s)
    (isTraining s) (isApplying s) (showSuccessOverlay s) (successMessage s)
    (countdown s) (intervals s) n (console s).

(** [console.log] / [console.error]: append to the console. *)
Definition logEntry (e : LogEntry) (s : PanelState) : PanelState :=
  mkPanel (tagCounts s) (totalSampleCount s) (view s) (activeTab s) (form s)
    (isTraining s) (isApplying s) (showSuccessOverlay s) (successMessage s)
    (countdown s) (intervals s) (nextHandle s) (console s ++ [e]).

(** [setInterval(callback, 1000)] with the callback's captured
    [let count = c]: a fresh handle is entered in the timer table. *)
Definition setInterval (c : Z) (s : PanelState) : PanelState :=
  withNextHandle (S (nextHandle s))
    (withIntervals (<[nextHandle s := c]> (intervals s)) s).

Definition clearInterval (h : nat) (s : PanelState) : PanelState :=
  withIntervals (delete h (intervals s)) s.

(** *** Derived values of a render *)

Definition panelStats (s : PanelState) : TagStats :=
  tagStats (tagCounts s) (totalSampleCount s).

(** The [disabled] prop of the two action buttons. *)
Definition buttonDisabled (j : Job) (s : PanelState) : bool :=
  match j with
  | Train => isTraining s || negb (isReadyToTrain (panelStats s))
  | Apply => isApplying s
  end.

(** *** Handlers *)

Definition handleFilterByTag (tag : option string) (s : PanelState)
  : PanelState :=
  setView (filterStages tag) s.

Definition executionWord (o : ExecutionOption) : string :=
  if isDelegated o then "delegated" else "immediate".

Definition handleTrainStart (o : ExecutionOption) (s : PanelState)
  : PanelState :=
  logEntry
    (ConsoleLog ("Training started with " ++ executionWord o ++ " execution") None)
    (setIsTraining true s).

(** The callback of the countdown interval with handle [h]:
    [count--; setCountdown(count); if (count === 0) { clearInterval(..);
    setShowSuccessOverlay(false) }].  A handle that is not running does
    not fire. *)
Definition countdownTick (h : nat) (s : PanelState) : PanelState :=
  match intervals s !! h with
  | None => s
  | Some count =>
      let count := count - 1 in
      let s := withIntervals (<[h := count]> (intervals s)) s in
      let s := setCountdown count s in
      if count =? 0
      then setShowSuccessOverlay false (clearInterval h s)
      else s
  end.

Definition isDelegatedResponse (r : option Response) : bool :=
  match r with Some r => delegated r | None => false end.

Definition operatorId (r : option Response) : option string :=
  match r with Some r => operation_id r | None => None end.

Definition handleTrainSuccess (response : option Response) (s : PanelState)
  : PanelState :=
  let s := logEntry (ConsoleLog "Training completed successfully"
                       (Some (PResponse response))) s in
  let s := setIsTraining false s in
  if isDelegatedResponse response then
    let s := logEntry (ConsoleLog "Training delegated with operation ID:"
                         (Some (POperationId (operatorId response)))) s in
    let s := setSuccessMessage "Training successfully scheduled!" s in
    let s := setShowSuccessOverlay true s in
    let s := setCountdown 5 s in
    setInterval 5 s
  else
    logEntry (ConsoleLog "Training completed immediately" None) s.

Definition handleTrainError (error : ErrorInfo) (s : PanelState)
  : PanelState :=
  setIsTraining false (logEntry (ConsoleError "Training failed:" error) s).

Definition handleApplyStart (o : ExecutionOption) (s : PanelState)
  : PanelState :=
  logEntry
    (ConsoleLog ("Model application started with " ++ executionWord o
                 ++ " execution") None)
    (setIsApplying true s).

Definition handleApplySuccess (response : option Response) (s : PanelState)
  : PanelState :=
  let s := logEntry (ConsoleLog "Model application completed successfully"
                       (Some (PResponse response))) s in
  let s := setIsApplying false s in
  if isDelegatedResponse response then
    let s := logEntry (ConsoleLog "Model application delegated with operation ID:"
                         (Some (POperationId (operatorId response)))) s in
    let s := setSuccessMessage "Model application successfully scheduled!" s in
    let s := setShowSuccessOverlay true s in
    let s := setCountdown 5 s in
    setInterval 5 s
  else
    logEntry (ConsoleLog "Model application completed immediately" None) s.

Definition handleApplyError (error : ErrorInfo) (s : PanelState)
  : PanelState :=
  setIsApplying false
    (logEntry (ConsoleError "Model application failed:" error) s).

(** *** Events of the panel *)

(** What the user can do on the panel's own elements: the two tab
    headers, the four histogram bars and the total line, and the eight
    form inputs. *)
Inductive UserEvent : Type :=
  | ClickTab (t : Tab)
  | ClickFilter (tag : option string)
  | ChangeSelectedField (v : string)
  | ChangeWeightsPath (v : string)
  | ChangeExportUri (v : string)
  | ChangeEpochs (v : option Z)
  | ChangeDeviceIndex (v : option Z)
  | ChangeApplyWeightsPath (v : string)
  | ChangeApplyField (v : string)
  | ChangeApplyDeviceIndex (v : option Z).

Definition changeForm (e : UserEvent) (f : FormState) : FormState :=
  match e with
  | ChangeSelectedField v =>
      mkForm v (weightsPath f) (exportUri f) (epochs f) (deviceIndex f)
        (applyWeightsPath f) (applyField f) (applyDeviceIndex f)
  | ChangeWeightsPath v =>
      mkForm (selectedField f) v (exportUri f) (epochs f) (deviceIndex f)
        (applyWeightsPath f) (applyField f) (applyDeviceIndex f)
  | ChangeExportUri v =>
      mkForm (selectedField f) (weightsPath f) v (epochs f) (deviceIndex f)
        (applyWeightsPath f) (applyField f) (applyDeviceIndex f)
  | ChangeEpochs v =>
      mkForm (selectedField f) (weightsPath f) (exportUri f) v (deviceIndex f)
        (applyWeightsPath f) (applyField f) (applyDeviceIndex f)
  | ChangeDeviceIndex v =>
      mkForm (selectedField f) (weightsPath f) (exportUri f) (epochs f) v
        (applyWeightsPath f) (applyField f) (applyDeviceIndex f)
  | ChangeApplyWeightsPath v =>
      mkForm (selectedField f) (weightsPath f) (exportUri f) (epochs f)
        (deviceIndex f) v (applyField f) (applyDeviceIndex f)
  | ChangeApplyField v =>
      mkForm (selectedField f) (weightsPath f) (exportUri f) (epochs f)
        (deviceIndex f) (applyWeightsPath f) v (applyDeviceIndex f)
  | ChangeApplyDeviceIndex v =>
      mkForm (selectedField f) (weightsPath f) (exportUri f) (epochs f)
        (deviceIndex f) (applyWeightsPath f) (applyField f) v
  | ClickTab _ | ClickFilter _ => f
  end.

Definition userStep (e : UserEvent) (s : PanelState) : PanelState :=
  match e with
  | ClickTab t => setActiveTab t s
  | ClickFilter tag => handleFilterByTag tag s
  | _ => setForm (changeForm e (form s)) s
  end.

(** What the execution button reports back for a click: the execution
    option the user picked, then the provider's success or failure. *)
Inductive Outcome : Type :=
  | OptionChosen (o : ExecutionOption)
  | Succeeded (response : option Response)
  | Failed (error : ErrorInfo).

(** The callbacks the panel passes to the button of job [j]
    ([onOptionSelected], [onSuccess], [onError]). *)
Definition onOptionSelected (j : Job) : ExecutionOption -> PanelState -> PanelState :=
  match j with Train => handleTrainStart | Apply => handleApplyStart end.

Definition onSuccess (j : Job) : option Response -> PanelState -> PanelState :=
  match j with Train => handleTrainSuccess | Apply => handleApplySuccess end.

Definition onError (j : Job) : ErrorInfo -> PanelState -> PanelState :=
  match j with Train => handleTrainError | Apply => handleApplyError end.

Definition outcomeStep (j : Job) (o : Outcome) (s : PanelState) : PanelState :=
  match o with
  | OptionChosen opt => onOptionSelected j opt s
  | Succeeded response => onSuccess j response s
  | Failed error => onError j error s
  end.

Inductive PanelEvent : Type :=
  | EUser (e : UserEvent)
  | EOutcome (j : Job) (o : Outcome)
  | ECountdown (h : nat)
  | ETagCounts (m : gmap string Z)
  | ESampleCount (n : option Z).

Definition panelStep (e : PanelEvent) (s : PanelState) : PanelState :=
  match e with
  | EUser u => userStep u s
  | EOutcome j o => outcomeStep j o s
  | ECountdown h => countdownTick h s
  | ETagCounts m => setTagCounts m s
  | ESampleCount n => setTotalSampleCount n s
  end.

Definition panelRun (tr : list PanelEvent) (s : PanelState) : PanelState :=
  fold_left (fun s e => panelStep e s) tr s.

(** The job tracker of [j] is busy between option selection and the
    provider's answer. *)
Definition busy (j : Job) (s : PanelState) : bool :=
  match j with Train => isTraining s | Apply => isApplying s end.

(** Number of firings of the countdown with handle [h] in a trace. *)
Fixpoint ticksOf (h : nat) (tr : list PanelEvent) : nat :=
  match tr with
  | [] => 0
  | ECountdown h' :: tr => (if Nat.eqb h h' then 1 else 0) + ticksOf h tr
  | _ :: tr => ticksOf h tr
  end.

(** An event that does not start another countdown: anything but a
    delegated success. *)
Definition startsNoCountdown (e : PanelEvent) : bool :=
  match e with
  | EOutcome _ (Succeeded response) => negb (isDelegatedResponse response)
  | _ => true
  end.

(** The tracker of a delegated job in its notifying phase, [n] ticks
    after the success arrived, with [h] the handle of its countdown: the
    displayed countdown is [5 - n] and the overlay shows while [n < 5];
    from the fifth tick on the countdown is 0, the overlay is hidden and
    the interval is cleared. *)
Definition notifying (h : nat) (n : nat) (s : PanelState) : Prop :=
  countdown s = 5 - Z.of_nat (Nat.min n 5)
  /\ showSuccessOverlay s = (n <? 5)%nat
  /\ intervals s = (if (n <? 5)%nat then {[h := 5 - Z.of_nat n]} else ∅).

(** The panel right after a delegated training job was accepted. *)
Definition notifyingPanel : PanelState :=
  panelRun [EOutcome Train (OptionChosen (mkOption true));
            EOutcome Train (Succeeded (Some (mkResponse true None)))]
    initialPanel.

(* ===================================================================== *)
(** ** The execution button and its empty-menu probe
       ([OperatorButtonWithWarning])                                     *)
(* ===================================================================== *)

(** What the probe reads of one element matched by
    ['.MuiPopover-root, [role="presentation"]']: its bounding rectangle,
    the number of menu items below it and whether it has a backdrop; and
    where a click on that backdrop ends up.  The menu of the wrapped
    execution button is a React child of the wrapper (through a portal),
    so a click on its backdrop bubbles to the wrapper's [onClick], which
    runs [handleWrapperClick] with the [disabled] prop of that moment:
    [Some disabled].  A click on the backdrop of another component's
    menu does not reach the wrapper: [None]. *)
Record Menu : Type := mkMenu {
  rectWidth : Q;
  rectHeight : Q;
  menuItems : nat;
  hasBackdrop : bool;
  bubblesToWrapper : option bool
}.

(** [rect.width > 0 && rect.height > 0] *)
Definition menuVisible (m : Menu) : bool :=
  negb (Qle_bool (rectWidth m) 0) && negb (Qle_bool (rectHeight m) 0).

Inductive TimeoutKind : Type :=
  | CheckForEmptyMenu   (** the polling callback *)
  | StopChecking.       (** the callback of [stopTimeout] *)

(** A pending [setTimeout]: its callback and the time (ms) it is due. *)
Record Timeout : Type := mkTimeout {
  callback : TimeoutKind;
  due : nat
}.

Record ButtonState : Type := mkButton {
  showNoTargetsWarning : bool;
  isCheckingMenu : bool;
  checkTimeoutRef : option nat;
  (** the effect's [const stopTimeout], captured by its cleanup; [None]
      when the last run of the effect returned early, without cleanup *)
  stopTimeout : option nat;
  timeouts : gmap nat Timeout;
  nextTimeout : nat;
  clock : nat;
  (** how often the probe clicked a backdrop to close an empty menu *)
  backdropClicks : nat
}.

(** A freshly mounted button at time 0; timer handles start at 1. *)
Definition initialButton : ButtonState :=
  {| showNoTargetsWarning := false;
     isCheckingMenu := false;
     checkTimeoutRef := None;
     stopTimeout := None;
     timeouts := ∅;
     nextTimeout := 1%nat;
     clock := 0%nat;
     backdropClicks := 0%nat |}.

Definition setShowNoTargetsWarning (b : bool) (s : ButtonState) : ButtonState :=
  mkButton b (isCheckingMenu s) (checkTimeoutRef s) (stopTimeout s)
    (timeouts s) (nextTimeout s) (clock s) (backdropClicks s).

Definition setIsCheckingMenu (b : bool) (s : ButtonState) : ButtonState :=
  mkButton (showNoTargetsWarning s) b (checkTimeoutRef s) (stopTimeout s)
    (timeouts s) (nextTimeout s) (clock s) (backdropClicks s).

Definition setCheckTimeoutRef (r : option nat) (s : ButtonState) : ButtonState :=
  mkButton (showNoTargetsWarning s) (isCheckingMenu s) r (stopTimeout s)
    (timeouts s) (nextTimeout s) (clock s) (backdropClicks s).

Definition withStopTimeout (r : option nat) (s : ButtonState) : ButtonState :=
  mkButton (showNoTargetsWarning s) (isCheckingMenu s) (checkTimeoutRef s) r
    (timeouts s) (nextTimeout s) (clock s) (backdropClicks s).

Definition withTimeouts (t : gmap nat Timeout) (n : nat) (s : ButtonState)
  : ButtonState :=
  mkButton (showNoTargetsWarning s) (isCheckingMenu s) (checkTimeoutRef s)
    (stopTimeout s) t n (clock s) (backdropClicks s).

Definition withClock (t : nat) (s : ButtonState) : ButtonState :=
  mkButton (showNoTargetsWarning s) (isCheckingMenu s) (checkTimeoutRef s)
    (stopTimeout s) (timeouts s) (nextTimeout s) t (backdropClicks s).

Definition clickBackdrop (s : ButtonState) : ButtonState :=
  mkButton (showNoTargetsWarning s) (isCheckingMenu s) (checkTimeoutRef s)
    (stopTimeout s) (timeouts s) (nextTimeout s) (clock s)
    (S (backdropClicks s)).

(** [setTimeout(k, delay)]: a fresh handle, due [delay] ms from now. *)
Definition setTimeout (k : TimeoutKind) (delay : nat) (s : ButtonState)
  : nat * ButtonState :=
  let h := nextTimeout s in
  (h, withTimeouts (<[h := mkTimeout k (clock s + delay)]> (timeouts s)) (S h) s).

(** [clearTimeout(h)]: nothing happens when [h] is not pending. *)
Definition clearTimeout (h : nat) (s : ButtonState) : ButtonState :=
  withTimeouts (delete h (timeouts s)) (nextTimeout s) s.

(** The body of the menu-check effect, run after a render in which
    [isCheckingMenu] changed. *)
Definition runEffect (s : ButtonState) : ButtonState :=
  if negb (isCheckingMenu s) then withStopTimeout None s
  else
    let '(h1, s) := setTimeout CheckForEmptyMenu 100 s in
    let s := setCheckTimeoutRef (Some h1) s in
    let '(h2, s) := setTimeout StopChecking 500 s in
    withStopTimeout (Some h2) s.

(** The cleanup the previous run of the effect returned, if it did. *)
Definition runCleanup (s : ButtonState) : ButtonState :=
  match stopTimeout s with
  | None => s
  | Some h2 =>
      let s := match checkTimeoutRef s with
               | Some h1 => clearTimeout h1 s
               | None => s
               end in
      clearTimeout h2 s
  end.

(** React after a handler: the effect depends on [[isCheckingMenu]], so
    cleanup and effect run only when that value differs from the one of
    the previous render ([was]). *)
Definition commit (was : bool) (s : ButtonState) : ButtonState :=
  if Bool.eqb was (isCheckingMenu s) then s else runEffect (runCleanup s).

Definition handleWrapperClick (disabled : bool) (s : ButtonState)
  : ButtonState :=
  if negb disabled then setIsCheckingMenu true s else s.

(** [backdrop.click()]: the click is counted, and when it bubbles to the
    wrapper, [handleWrapperClick] runs within the same callback. *)
Definition backdropClick (menu : Menu) (s : ButtonState) : ButtonState :=
  let s := clickBackdrop s in
  match bubblesToWrapper menu with
  | Some disabled => handleWrapperClick disabled s
  | None => s
  end.

(** [checkForEmptyMenu], on the elements the query returns when it runs:
    the first visible one decides.  The state updates of one callback
    are batched (React 18): a [setIsCheckingMenu(true)] of the bubbled
    backdrop click overrides the [setIsCheckingMenu(false)] before it,
    and the render that follows sees the flag unchanged. *)
Definition checkForEmptyMenu (menus : list Menu) (s : ButtonState)
  : ButtonState :=
  match List.find menuVisible menus with
  | Some menu =>
      if Nat.eqb (menuItems menu) 0 then
        let s := setShowNoTargetsWarning true s in
        let s := setIsCheckingMenu false s in
        if hasBackdrop menu then backdropClick menu s else s
      else setIsCheckingMenu false s
  | None =>
      match checkTimeoutRef s with
      | Some _ =>
          let '(h, s) := setTimeout CheckForEmptyMenu 50 s in
          setCheckTimeoutRef (Some h) s
      | None => s
      end
  end.

(** The callback of [stopTimeout]. *)
Definition stopChecking (s : ButtonState) : ButtonState :=
  let s := setIsCheckingMenu false s in
  match checkTimeoutRef s with
  | Some h => setCheckTimeoutRef None (clearTimeout h s)
  | None => s
  end.

(** The wrapper's part of [handleOptionSelected]; the panel's callback is
    called next (see [deliver]). *)
Definition handleOptionSelected (s : ButtonState) : ButtonState :=
  setShowNoTargetsWarning false s.

Inductive ButtonEvent : Type :=
  | WrapperClick (disabled : bool)
  | OptionSelected
  | TimeoutFires (h : nat) (menus : list Menu).

(** A pending timeout leaves the table when it fires, then its callback
    runs; a handle that is not pending does not fire. *)
Definition fireTimeout (h : nat) (menus : list Menu) (s : ButtonState)
  : ButtonState :=
  match timeouts s !! h with
  | None => s
  | Some tm =>
      let s := clearTimeout h s in
      match callback tm with
      | CheckForEmptyMenu => checkForEmptyMenu menus s
      | StopChecking => stopChecking s
      end
  end.

Definition handle (e : ButtonEvent) (s : ButtonState) : ButtonState :=
  match e with
  | WrapperClick disabled => handleWrapperClick disabled s
  | OptionSelected => handleOptionSelected s
  | TimeoutFires h menus => fireTimeout h menus s
  end.

(** One event: the handler, then React's commit. *)
Definition buttonStep (e : ButtonEvent) (s : ButtonState) : ButtonState :=
  commit (isCheckingMenu s) (handle e s).

(** Timeouts fire in the order of their due times, and for equal due
    times in the order they were set. *)
Definition firesBefore (h : nat) (tm : Timeout) (h' : nat) (tm' : Timeout)
  : bool :=
  (due tm <? due tm')%nat || ((due tm =? due tm')%nat && (h <=? h')%nat).

(** Can [e] happen at time [t]?  Time does not run backwards, a timeout
    does not fire before it is due, nor before a pending one that is due
    earlier. *)
Definition feasible (t : nat) (e : ButtonEvent) (s : ButtonState) : bool :=
  (clock s <=? t)%nat &&
  match e with
  | TimeoutFires h _ =>
      match timeouts s !! h with
      | Some tm =>
          (due tm <=? t)%nat &&
          forallb (fun p => firesBefore h tm (fst p) (snd p))
                  (map_to_list (timeouts s))
      | None => false
      end
  | _ => true
  end.

Definition timedStep (te : nat * ButtonEvent) (s : ButtonState)
  : option ButtonState :=
  let '(t, e) := te in
  if feasible t e s then Some (buttonStep e (withClock t s)) else None.

Fixpoint timedRun (tr : list (nat * ButtonEvent)) (s : ButtonState)
  : option ButtonState :=
  match tr with
  | [] => Some s
  | te :: tr =>
      match timedStep te s with
      | Some s' => timedRun tr s'
      | None => None
      end
  end.

(** The states a mounted button can be in. *)
Inductive reachable : ButtonState -> Prop :=
  | reachable_initial : reachable initialButton
  | reachable_step te s s' :
      reachable s -> timedStep te s = Some s' -> reachable s'.

(** *** The button inside the panel *)

(** The execution button reports an outcome: the wrapper hides its
    warning on an option selection and calls the panel's callback; the
    [onSuccess] and [onError] props are passed through as they are. *)
Definition deliver (j : Job) (o : Outcome) (bp : ButtonState * PanelState)
  : ButtonState * PanelState :=
  let '(b, p) := bp in
  match o with
  | OptionChosen opt => (buttonStep OptionSelected b, onOptionSelected j opt p)
  | Succeeded response => (b, onSuccess j response p)
  | Failed error => (b, onError j error p)
  end.

(** A click on the wrapper of the button of job [j]. *)
Definition clickButton (j : Job) (bp : ButtonState * PanelState)
  : ButtonState * PanelState :=
  let '(b, p) := bp in
  (buttonStep (WrapperClick (buttonDisabled j p)) b, p).

(** Does a check that found [menu] as the first visible one leave the
    flag set?  Only when the menu is empty, has a backdrop, and the click
    on it reaches the wrapper of an enabled button. *)
Definition staysChecking (menu : Menu) : bool :=
  Nat.eqb (menuItems menu) 0 && hasBackdrop menu
  && match bubblesToWrapper menu with
     | Some disabled => negb disabled
     | None => false
     end.

(** What holds of the probe between events.  While [isCheckingMenu] is
    set, the stop timeout the cleanup captured is pending, and with it
    either the next check, whose handle is in [checkTimeoutRef], or
    nothing else: the latter after the probe closed the button's own
    empty menu and the bubbled click set the flag again, with
    [checkTimeoutRef] still holding the handle of the check that ran.
    While the flag is not set, no timeout is pending. *)
Definition pollInvariant (s : ButtonState) : Prop :=
  if isCheckingMenu s then
    exists h1 h2 d2,
      h1 <> h2 /\ (h1 < nextTimeout s)%nat /\ (h2 < nextTimeout s)%nat
      /\ checkTimeoutRef s = Some h1 /\ stopTimeout s = Some h2
      /\ ((exists d1, timeouts s = <[h1 := mkTimeout CheckForEmptyMenu d1]>
                                     {[h2 := mkTimeout StopChecking d2]})
          \/ timeouts s = {[h2 := mkTimeout StopChecking d2]})
  else timeouts s = ∅ /\ stopTimeout s = None.

(** The empty menu of the wrapped execution button, button enabled: it
    is visible, has no item, and a click on its backdrop bubbles to the
    wrapper. *)
Definition emptyMenu : Menu :=
  {| rectWidth := 160; rectHeight := 8; menuItems := 0; hasBackdrop := true;
     bubblesToWrapper := Some false |}.

(** An empty menu of another component: the click on its backdrop does
    not reach the wrapper. *)
Definition foreignEmptyMenu : Menu :=
  {| rectWidth := 160; rectHeight := 8; menuItems := 0; hasBackdrop := true;
     bubblesToWrapper := None |}.

(** The button 0 ms after a first click: the poll's two timeouts are set. *)
Definition pollingButton : ButtonState :=
  {| showNoTargetsWarning := false;
     isCheckingMenu := true;
     checkTimeoutRef := Some 1%nat;
     stopTimeout := Some 2%nat;
     timeouts := <[2%nat := mkTimeout StopChecking 500]>
                   (<[1%nat := mkTimeout CheckForEmptyMenu 100]> ∅);
     nextTimeout := 3%nat;
     clock := 0%nat;
     backdropClicks := 0%nat |}.

(** *** The schedule of a poll *)

(** [pollInvariant] with the due times: while a check is pending, the
    first check is due before the stop timeout, a later check has a
    newer handle than the stop timeout, and the stop timeout is due at
    most 400 ms after the pending check. *)
Definition pollSchedule (s : ButtonState) : Prop :=
  if isCheckingMenu s then
    exists h1 h2 d2,
      h1 <> h2 /\ (h1 < nextTimeout s)%nat /\ (h2 < nextTimeout s)%nat
      /\ checkTimeoutRef s = Some h1 /\ stopTimeout s = Some h2
      /\ ((exists d1, timeouts s = <[h1 := mkTimeout CheckForEmptyMenu d1]>
                                     {[h2 := mkTimeout StopChecking d2]}
                      /\ ((h1 < h2)%nat -> (d1 < d2)%nat)
                      /\ (d2 <= d1 + 400)%nat)
          \/ timeouts s = {[h2 := mkTimeout StopChecking d2]})
  else timeouts s = ∅ /\ stopTimeout s = None.

(** The pending check and the stop timeout of a running poll. *)
Definition pollTimers (s : ButtonState) : option (Timeout * Timeout) :=
  match checkTimeoutRef s, stopTimeout s with
  | Some h1, Some h2 =>
      match timeouts s !! h1, timeouts s !! h2 with
      | Some c, Some st => Some (c, st)
      | _, _ => None
      end
  | _, _ => None
  end.

(** How many more times [checkForEmptyMenu] can run in the poll: checks
    are at least 50 ms apart and only run while due before the stop
    timeout. *)
Definition pollBudget (s : ButtonState) : nat :=
  if isCheckingMenu s then
    match pollTimers s with
    | Some (c, st) =>
        if (due c <? due st)%nat then S ((due st - due c - 1) / 50) else 0%nat
    | None => 0%nat
    end
  else 0%nat.

(** Does the event run [checkForEmptyMenu] in state [s]? *)
Definition runsCheck (e : ButtonEvent) (s : ButtonState) : bool :=
  match e with
  | TimeoutFires h _ =>
      match timeouts s !! h with
      | Some tm =>
          match callback tm with CheckForEmptyMenu => true | StopChecking => false end
      | None => false
      end
  | _ => false
  end.

(** The number of runs of [checkForEmptyMenu] along a timed trace. *)
Fixpoint checkRuns (tr : list (nat * ButtonEvent)) (s : ButtonState) : nat :=
  match tr with
  | [] => 0%nat
  | te :: tr =>
      match timedStep te s with
      | Some s' =>
          ((if runsCheck (snd te) s then 1 else 0) + checkRuns tr s')%nat
      | None => 0%nat
      end
  end.

(** An event that cannot start a poll: anything but a click on an
    enabled button. *)
Definition startsNoPoll (te : nat * ButtonEvent) : bool :=
  match snd te with
  | WrapperClick disabled => disabled
  | _ => true
  end.

(** *** The invariant of the panel's countdowns *)

(** Every running countdown holds a count from 1 to 5 under a handle that
    was handed out, the displayed countdown is from 0 to 5, and while the
    overlay shows some countdown is running. *)
Definition countdownInvariant (s : PanelState) : Prop :=
  (forall h c, intervals s !! h = Some c ->
               1 <= c <= 5 /\ (h < nextHandle s)%nat)
  /\ 0 <= countdown s <= 5
  /\ (showSuccessOverlay s = true -> intervals s <> ∅).

(** The other job. *)
Definition otherJob (j : Job) : Job :=
  match j with Train => Apply | Apply => Train end.

(* ===================================================================== *)
(** ** Polling the tag counts (the first effect of the panel)            *)
(* ===================================================================== *)

(** The result of the [get_tag_counts] operator. *)
Record ExecutorResult : Type := mkExecutorResult {
  tag_counts : option (gmap string Z)
}.

(** [tagCountsExecutor.result?.tag_counts || {}] *)
Definition tagCountsOf (result : option ExecutorResult) : gmap string Z :=
  match result with
  | Some r => default ∅ (tag_counts r)
  | None => ∅
  end.

Record PollerState : Type := mkPoller {
  (** [dataset?.name] of the last render; [None] when no dataset is loaded *)
  datasetName : option string;
  (** the [interval] captured by the cleanup of the last run of the
      effect; [None] when that run returned early *)
  pollCleanup : option nat;
  (** the running 2000 ms intervals *)
  pollIntervals : gset nat;
  nextPollHandle : nat;
  (** calls of [tagCountsExecutor.execute({})] so far *)
  executions : nat;
  executorResult : option ExecutorResult
}.

(** The effect body: nothing without a dataset; otherwise one fetch now
    and an interval for the later ones. *)
Definition pollerEffect (s : PollerState) : PollerState :=
  match datasetName s with
  | None =>
      mkPoller (datasetName s) None (pollIntervals s) (nextPollHandle s)
        (executions s) (executorResult s)
  | Some _ =>
      let h := nextPollHandle s in
      mkPoller (datasetName s) (Some h) ({[h]} ∪ pollIntervals s) (S h)
        (S (executions s)) (executorResult s)
  end.

(** [() => clearInterval(interval)], when the last run registered it. *)
Definition pollerCleanup (s : PollerState) : PollerState :=
  match pollCleanup s with
  | Some h =>
      mkPoller (datasetName s) (pollCleanup s) (pollIntervals s ∖ {[h]})
        (nextPollHandle s) (executions s) (executorResult s)
  | None => s
  end.

(** The panel mounts with dataset [d]: the effect runs once. *)
Definition mountPoller (d : option string) : PollerState :=
  pollerEffect
    {| datasetName := d; pollCleanup := None; pollIntervals := ∅;
       nextPollHandle := 1%nat; executions := 0%nat; executorResult := None |}.

Inductive PollerEvent : Type :=
  | DatasetChanged (d : option string)
  | PollTick (h : nat)
  | ExecutorSettled (result : option ExecutorResult).

Definition option_string_eqb (a b : option string) : bool :=
  match a, b with
  | Some x, Some y => String.eqb x y
  | None, None => true
  | _, _ => false
  end.

Definition pollerStep (e : PollerEvent) (s : PollerState) : PollerState :=
  match e with
  | DatasetChanged d =>
      (* the effect depends on [dataset?.name] only *)
      if option_string_eqb d (datasetName s) then s
      else
        pollerEffect
          (let s := pollerCleanup s in
           mkPoller d (pollCleanup s) (pollIntervals s) (nextPollHandle s)
             (executions s) (executorResult s))
  | PollTick h =>
      if decide (h ∈ pollIntervals s) then
        mkPoller (datasetName s) (pollCleanup s) (pollIntervals s)
          (nextPollHandle s) (S (executions s)) (executorResult s)
      else s
  | ExecutorSettled result =>
      mkPoller (datasetName s) (pollCleanup s) (pollIntervals s)
        (nextPollHandle s) (executions s) result
  end.

Definition pollerRun (tr : list PollerEvent) (s : PollerState) : PollerState :=
  fold_left (fun s e => pollerStep e s) tr s.

(** With a dataset exactly one interval runs, the one the cleanup will
    clear; without a dataset none runs. *)
Definition pollerInvariant (s : PollerState) : Prop :=
  match datasetName s with
  | Some _ =>
      exists h, pollCleanup s = Some h /\ pollIntervals s = {[h]}
                /\ (h < nextPollHandle s)%nat
  | None => pollCleanup s = None /\ pollIntervals s = ∅
  end.

(* ===================================================================== *)
(** ** The earlier version of the panel ([src/ModelFineTunerPanel.tsx])  *)
(* ===================================================================== *)

Module Legacy.

(** One entry of a string aggregation: a tag and its sample count. *)
Record AggregationValue : Type := mkValue {
  value : string;
  count : Z
}.

Record Aggregation : Type := mkAggregation {
  __typename : string;
  values : list AggregationValue
}.

(** [Object.fromEntries]: a later entry for a key replaces an earlier one. *)
Definition fromEntries (entries : list (string * Z)) : gmap string Z :=
  fold_left (fun m e => <[fst e := snd e]> m) entries ∅.

(** The [get] of the selector [datasetTagCounts]. *)
Definition datasetTagCounts (data : Aggregation) : gmap string Z :=
  if negb (String.eqb (__typename data) "StringAggregation") then ∅
  else fromEntries (map (fun v => (value v, count v)) (values data)).

(** How the awaited [executeOperator] call ends. *)
Inductive Settled : Type :=
  | Fulfilled
  | Rejected (error : ErrorInfo).

(** [handleTrain] up to its [await].  The submit handlers of this version
    touch the busy flags and the console only, which both versions of
    the panel have; they are stated over the same state record. *)
Definition handleTrain_start (s : PanelState) : PanelState :=
  setIsTraining true s.

(** [handleTrain] after the [await]: the [catch], then the [finally]. *)
Definition handleTrain_settle (r : Settled) (s : PanelState) : PanelState :=
  let s := match r with
           | Fulfilled => s
           | Rejected error => logEntry (ConsoleError "Training failed:" error) s
           end in
  setIsTraining false s.

Definition handleApplyModel_start (s : PanelState) : PanelState :=
  setIsApplying true s.

Definition handleApplyModel_settle (r : Settled) (s : PanelState)
  : PanelState :=
  let s := match r with
           | Fulfilled => s
           | Rejected error =>
               logEntry (ConsoleError "Model application failed:" error) s
           end in
  setIsApplying false s.

End Legacy.

(* ===================================================================== *)
(** * Properties                                                         *)
(* ===================================================================== *)

(** ** Tag statistics *)

Section Stats.

Variable tagCounts : gmap string Z.
Variable totalSampleCount : option Z.

(** The raw counts [tagStats] reads. *)
Let train := or_zero (tagCounts !! "train").
Let val := or_zero (tagCounts !! "val").
Let total := or_zero totalSampleCount.
Let st := tagStats tagCounts totalSampleCount.

Lemma both_count_eq : both_count st = Z.max 0 (train + val - total).
Proof. reflexivity. Qed.

Lemma train_count_eq : train_count st = train - both_count st.
Proof. reflexivity. Qed.

Lemma val_count_eq : val_count st = val - both_count st.
Proof. reflexivity. Qed.

Lemma total_count_eq : total_count st = total.
Proof. reflexivity. Qed.

Lemma untagged_count_eq :
  untagged_count st =
  Z.max 0 (total - (train_count st + val_count st + both_count st)).
Proof. reflexivity. Qed.

(** The tagged samples never exceed the total, so the clamp of
    [untaggedCount] is never active. *)
Lemma untagged_count_unclamped :
  untagged_count st = total - Z.min (train + val) total.
Proof.
  rewrite untagged_count_eq, train_count_eq, val_count_eq, both_count_eq.
  lia.
Qed.

(** The overlap and the untagged count are never negative. *)
Lemma both_untagged_nonneg : 0 <= both_count st /\ 0 <= untagged_count st.
Proof. rewrite untagged_count_eq, both_count_eq. lia. Qed.

(** The exclusive counts are clamped nowhere: with non-negative raw
    counts, [val_count] is negative exactly when [train] exceeds the
    total, and [train_count] exactly when [val] does. *)
Lemma exclusive_counts_negative :
  0 <= train -> 0 <= val -> 0 <= total ->
  (val_count st < 0 <-> total < train) /\
  (train_count st < 0 <-> total < val).
Proof.
  rewrite train_count_eq, val_count_eq, both_count_eq. lia.
Qed.

End Stats.

(** Goals about the counts of one [tagStats] call: rewrite them to the
    raw counts and finish by linear arithmetic over [Z.max]. *)
Ltac stats_arith :=
  rewrite ?untagged_count_eq, ?train_count_eq, ?val_count_eq, ?both_count_eq;
  lia.

Lemma snapshot_train train val : snapshot train val !! "train" = Some train.
Proof. unfold snapshot. by rewrite lookup_insert_eq. Qed.

Lemma snapshot_val train val : snapshot train val !! "val" = Some val.
Proof.
  unfold snapshot. rewrite lookup_insert_ne by done. by rewrite lookup_insert_eq.
Qed.

(** C1: when the raw counts satisfy [0 <= train <= total] and
    [0 <= val <= total], the four category counts of [tagStats] add up to
    the total and each of them is non-negative. *)
Theorem tagStats_partition (tagCounts : gmap string Z)
    (totalSampleCount : option Z) :
  0 <= or_zero (tagCounts !! "train") <= or_zero totalSampleCount ->
  0 <= or_zero (tagCounts !! "val") <= or_zero totalSampleCount ->
  let st := tagStats tagCounts totalSampleCount in
  train_count st + val_count st + both_count st + untagged_count st
    = or_zero totalSampleCount
  /\ 0 <= train_count st /\ 0 <= val_count st
  /\ 0 <= both_count st /\ 0 <= untagged_count st.
Proof.
  intros Htrain Hval st. subst st. stats_arith.
Qed.

Lemma tagStats_partition_witness :
  let st := tagStats (snapshot 60 60) (Some 100) in
  train_count st + val_count st + both_count st + untagged_count st = 100
  /\ 0 <= train_count st /\ 0 <= val_count st
  /\ 0 <= both_count st /\ 0 <= untagged_count st.
Proof.
  apply (tagStats_partition (snapshot 60 60) (Some 100)).
  - rewrite snapshot_train. simpl. lia.
  - rewrite snapshot_val. simpl. lia.
Defined.

(** C2: with the stale snapshot train = 10, val = 0 and total = 5 (all
    non-negative, train above the total) [tagStats] returns a val-only
    count of -5: the exclusive counts are not clamped. *)
Theorem tagStats_stale_snapshot_negative :
  tagStats (snapshot 10 0) (Some 5) =
  {| train_count := 5; val_count := -5; both_count := 5;
     total_count := 5; untagged_count := 0 |}.
Proof. reflexivity. Qed.

(** C3: with train = 3, val = 2 and total = 0 (non-negative raw counts,
    both above the total) [tagStats] returns train-only = -2, val-only = -3
    and both = 5 instead of four zeros: there is no guard for a total of 0,
    and the exclusive counts are the unclamped subtractions of C2. *)
Lemma tagStats_zero_total_counterexample :
  tagStats (snapshot 3 2) (Some 0) =
  {| train_count := -2; val_count := -3; both_count := 5;
     total_count := 0; untagged_count := 0 |}
  /\ ~ (let st := tagStats (snapshot 3 2) (Some 0) in
        train_count st = 0 /\ val_count st = 0
        /\ both_count st = 0 /\ untagged_count st = 0).
Proof.
  split; [reflexivity |]. cbv zeta. intros (H & _). discriminate H.
Qed.

(** What [tagStats] computes for a total of 0: the clamp on the untagged
    count gives 0, the overlap is [max 0 (train + val)], and each ratio
    takes the guarded branch, so no division is evaluated. *)
Lemma tagStats_total_zero_values (tagCounts : gmap string Z)
    (totalSampleCount : option Z) :
  0 <= or_zero (tagCounts !! "train") ->
  0 <= or_zero (tagCounts !! "val") ->
  or_zero totalSampleCount = 0 ->
  let st := tagStats tagCounts totalSampleCount in
  untagged_count st = 0
  /\ both_count st = or_zero (tagCounts !! "train") + or_zero (tagCounts !! "val")
  /\ trainRatio st = (js_of_Z 0, []) /\ valRatio st = (js_of_Z 0, [])
  /\ bothRatio st = (js_of_Z 0, []) /\ untaggedRatio st = (js_of_Z 0, []).
Proof.
  intros Htrain Hval Htotal st. subst st.
  unfold trainRatio, valRatio, bothRatio, untaggedRatio, ratio.
  rewrite total_count_eq, Htotal. cbn [Z.ltb Z.compare].
  rewrite untagged_count_eq, ?train_count_eq, ?val_count_eq, both_count_eq.
  rewrite Htotal. repeat split; try reflexivity; lia.
Qed.

(** C10: for every snapshot, consistent or not, the exclusive counts and
    the overlap give back the raw tag totals: [trainOnly + both = train]
    and [valOnly + both = val]. *)
Theorem tagStats_preserves_tag_totals (tagCounts : gmap string Z)
    (totalSampleCount : option Z) :
  let st := tagStats tagCounts totalSampleCount in
  train_count st + both_count st = or_zero (tagCounts !! "train")
  /\ val_count st + both_count st = or_zero (tagCounts !! "val")
  /\ train_count st + val_count st + 2 * both_count st
     = or_zero (tagCounts !! "train") + or_zero (tagCounts !! "val").
Proof.
  intros st. subst st. stats_arith.
Qed.

(** The worked cases of the statistics: no tags, disjoint tags, and an
    overlap forced by the pigeonhole excess. *)
Example tagStats_no_tags (n : Z) :
  0 <= n ->
  tagStats (snapshot 0 0) (Some n) =
  {| train_count := 0; val_count := 0; both_count := 0;
     total_count := n; untagged_count := n |}.
Proof.
  intros Hn. unfold tagStats. rewrite snapshot_train, snapshot_val.
  unfold or_zero. simpl default. f_equal; lia.
Qed.

Example tagStats_disjoint :
  tagStats (snapshot 80 20) (Some 100) =
  {| train_count := 80; val_count := 20; both_count := 0;
     total_count := 100; untagged_count := 0 |}.
Proof. reflexivity. Qed.

Example tagStats_overlap :
  tagStats (snapshot 60 60) (Some 100) =
  {| train_count := 40; val_count := 40; both_count := 20;
     total_count := 100; untagged_count := 0 |}.
Proof. reflexivity. Qed.

(** ** Ratios *)

Lemma js_div_positive (count total : Z) :
  0 < total ->
  js_div (js_of_Z count) (js_of_Z total)
  = Fin (inject_Z count / inject_Z total)%Q.
Proof.
  intros Hpos. unfold js_div, js_of_Z, q_sign. cbn [Qnum inject_Z].
  destruct (Z.compare_spec total 0); [lia | lia | reflexivity].
Qed.

Lemma ratio_guarded (count total : Z) :
  ratioGuarded count total (ratio count total).
Proof.
  unfold ratioGuarded, ratio.
  destruct (Z.ltb_spec 0 total) as [Hpos | Hle].
  - rewrite js_div_positive by assumption. cbn [fst snd js_mul js_of_Z is_finite].
    split; [constructor; [lia | constructor] |].
    split; [reflexivity |]. split; [intros ->; lia |].
    split; [reflexivity | intros _; exact Hpos].
  - cbn [fst snd js_of_Z is_finite].
    split; [constructor |]. split; [reflexivity |].
    split; [reflexivity |]. split; [lia | intros Hne; contradiction].
Qed.

(** C8: each of the four display ratios divides by [total_count] only
    under the guard [total_count > 0]: every divisor of the evaluation is
    non-zero, the value is finite, a division takes place only when the
    total is positive, and with a total of 0 the ratio is the default 0
    and no division takes place. *)
Theorem ratios_never_divide_by_zero (st : TagStats) :
  ratioGuarded (train_count st) (total_count st) (trainRatio st)
  /\ ratioGuarded (val_count st) (total_count st) (valRatio st)
  /\ ratioGuarded (both_count st) (total_count st) (bothRatio st)
  /\ ratioGuarded (untagged_count st) (total_count st) (untaggedRatio st).
Proof.
  unfold trainRatio, valRatio, bothRatio, untaggedRatio.
  repeat split; apply ratio_guarded.
Qed.

(** ** View filters *)

(** C4: the bar of "both" sets a view of exactly two stages, the first
    matching tag train and the second matching tag val; the total line
    ([null]) sets the empty view; "untagged" sets exactly one stage that
    excludes the tags train and val; "train" and "val" each set exactly
    one stage matching that tag only. *)
Theorem handleFilterByTag_stages (s : PanelState) :
  (exists a b, view (handleFilterByTag (Some "both") s) = [a; b]
               /\ matchesOnlyTag "train" a /\ matchesOnlyTag "val" b)
  /\ view (handleFilterByTag None s) = []
  /\ (exists a, view (handleFilterByTag (Some "untagged") s) = [a]
                /\ excludesTags ["train"; "val"] a)
  /\ (exists a, view (handleFilterByTag (Some "train") s) = [a]
                /\ matchesOnlyTag "train" a)
  /\ (exists a, view (handleFilterByTag (Some "val") s) = [a]
                /\ matchesOnlyTag "val" a).
Proof.
  unfold handleFilterByTag, matchesOnlyTag, excludesTags.
  cbn [view setView filterStages].
  split; [| split; [| split; [| split]]].
  - eexists _, _. split; [reflexivity |]. repeat split.
  - reflexivity.
  - eexists. split; [reflexivity |]. repeat split.
  - eexists. split; [reflexivity |]. repeat split.
  - eexists. split; [reflexivity |]. repeat split.
Qed.

(** Any other tag name is treated like "train" and "val". *)
Lemma filterStages_other_tag (t : string) :
  t <> "untagged" -> t <> "both" ->
  filterStages (Some t) = [ {| _cls := MatchTags; kwargs := [("tags", KwTags [t])] |} ].
Proof.
  intros H1 H2. unfold filterStages.
  destruct (String.eqb_spec t "untagged"); [contradiction |].
  destruct (String.eqb_spec t "both"); [contradiction |]. reflexivity.
Qed.

(** ** Readiness *)

Lemma isReadyToTrain_spec (st : TagStats) :
  isReadyToTrain st = true <->
  (0 < train_count st \/ 0 < both_count st)
  /\ (0 < val_count st \/ 0 < both_count st).
Proof.
  unfold isReadyToTrain.
  rewrite andb_true_iff, !orb_true_iff, !Z.ltb_lt. reflexivity.
Qed.

(** C9: the Start Training button is disabled by
    [isTraining || !isReadyToTrain]; it is enabled exactly when the stats
    satisfy (trainOnly > 0 or both > 0) and (valOnly > 0 or both > 0) and
    no training is pending; with consistent raw counts that is exactly
    when some sample carries train, some sample carries val and no
    training is pending. *)
Theorem training_enabled_iff (s : PanelState) :
  0 <= or_zero (tagCounts s !! "train") <= or_zero (totalSampleCount s) ->
  0 <= or_zero (tagCounts s !! "val") <= or_zero (totalSampleCount s) ->
  buttonDisabled Train s = isTraining s || negb (isReadyToTrain (panelStats s))
  /\ (buttonDisabled Train s = false <->
      ((0 < train_count (panelStats s) \/ 0 < both_count (panelStats s))
       /\ (0 < val_count (panelStats s) \/ 0 < both_count (panelStats s)))
      /\ isTraining s = false)
  /\ (buttonDisabled Train s = false <->
      (0 < or_zero (tagCounts s !! "train")
       /\ 0 < or_zero (tagCounts s !! "val"))
      /\ isTraining s = false).
Proof.
  intros Htrain Hval.
  assert (Hen : buttonDisabled Train s = false <->
                isReadyToTrain (panelStats s) = true /\ isTraining s = false).
  { cbn [buttonDisabled]. rewrite orb_false_iff, negb_false_iff. tauto. }
  split; [reflexivity |]. rewrite Hen, isReadyToTrain_spec.
  split; [reflexivity |].
  assert (Hcounts :
            (0 < train_count (panelStats s) \/ 0 < both_count (panelStats s))
            /\ (0 < val_count (panelStats s) \/ 0 < both_count (panelStats s))
            <-> 0 < or_zero (tagCounts s !! "train")
                /\ 0 < or_zero (tagCounts s !! "val")).
  { unfold panelStats. stats_arith. }
  rewrite Hcounts. reflexivity.
Qed.

Lemma training_enabled_iff_witness :
  let s := setTotalSampleCount (Some 100)
             (setTagCounts (snapshot 60 60) initialPanel) in
  buttonDisabled Train s = isTraining s || negb (isReadyToTrain (panelStats s))
  /\ (buttonDisabled Train s = false <->
      ((0 < train_count (panelStats s) \/ 0 < both_count (panelStats s))
       /\ (0 < val_count (panelStats s) \/ 0 < both_count (panelStats s)))
      /\ isTraining s = false)
  /\ (buttonDisabled Train s = false <->
      (0 < or_zero (tagCounts s !! "train")
       /\ 0 < or_zero (tagCounts s !! "val"))
      /\ isTraining s = false).
Proof.
  apply (training_enabled_iff
           (setTotalSampleCount (Some 100)
              (setTagCounts (snapshot 60 60) initialPanel))).
  - cbn [tagCounts totalSampleCount setTotalSampleCount setTagCounts].
    rewrite snapshot_train. simpl. lia.
  - cbn [tagCounts totalSampleCount setTotalSampleCount setTagCounts].
    rewrite snapshot_val. simpl. lia.
Defined.

(** ** Job outcomes *)

(** C7: when the provider fails, the panel's error callback runs once
    with the failure (the console gains exactly the one error report),
    the tracker of the job is idle again, the button is untouched and no
    notification is created: overlay, message, countdown and the running
    intervals are as before. *)
Theorem provider_failure_returns_to_idle (j : Job) (error : ErrorInfo)
    (b : ButtonState) (p : PanelState) :
  let bp := deliver j (Failed error) (b, p) in
  busy j (snd bp) = false
  /\ console (snd bp)
     = (console p ++ [ConsoleError (match j with
                                    | Train => "Training failed:"
                                    | Apply => "Model application failed:"
                                    end) error])%list
  /\ showSuccessOverlay (snd bp) = showSuccessOverlay p
  /\ successMessage (snd bp) = successMessage p
  /\ countdown (snd bp) = countdown p
  /\ intervals (snd bp) = intervals p
  /\ nextHandle (snd bp) = nextHandle p
  /\ fst bp = b
  /\ buttonDisabled j (snd bp)
     = match j with
       | Train => negb (isReadyToTrain (panelStats p))
       | Apply => false
       end.
Proof.
  destruct j; cbn; repeat split; reflexivity.
Qed.

(** An immediate success does not create a notification either. *)
Lemma immediate_success_returns_to_idle (j : Job) (response : option Response)
    (p : PanelState) :
  isDelegatedResponse response = false ->
  let p' := outcomeStep j (Succeeded response) p in
  busy j p' = false
  /\ showSuccessOverlay p' = showSuccessOverlay p
  /\ countdown p' = countdown p
  /\ intervals p' = intervals p.
Proof.
  intros Himm. destruct j; cbn [outcomeStep onSuccess];
    unfold handleTrainSuccess, handleApplySuccess; rewrite Himm;
    repeat split; reflexivity.
Qed.

(** *** The countdown of a delegated success *)

Lemma countdownTick_other (h h' : nat) (n : nat) (s : PanelState) :
  notifying h n s -> h <> h' -> countdownTick h' s = s.
Proof.
  intros (_ & _ & Hint) Hne. unfold countdownTick. rewrite Hint.
  destruct (n <? 5)%nat.
  - rewrite lookup_singleton_ne by assumption. reflexivity.
  - rewrite lookup_empty. reflexivity.
Qed.

Lemma countdownTick_notifying (h : nat) (n : nat) (s : PanelState) :
  notifying h n s -> notifying h (S n) (countdownTick h s).
Proof.
  intros (Hc & Hv & Hint). unfold countdownTick. rewrite Hint.
  destruct (Nat.ltb_spec n 5) as [Hlt | Hge].
  - rewrite lookup_singleton_eq.
    destruct (Z.eqb_spec (5 - Z.of_nat n - 1) 0) as [Hz | Hnz].
    + assert (n = 4%nat) by lia. subst n. unfold notifying.
      cbn [countdown showSuccessOverlay intervals setShowSuccessOverlay
             clearInterval withIntervals setCountdown].
      repeat split. rewrite insert_singleton_eq.
      apply delete_singleton_eq.
    + assert (Hlt' : (S n < 5)%nat) by lia.
      unfold notifying.
      cbn [countdown showSuccessOverlay intervals withIntervals setCountdown].
      apply Nat.ltb_lt in Hlt'. rewrite Hlt'. apply Nat.ltb_lt in Hlt'.
      repeat split; [lia | assumption |].
      rewrite insert_singleton_eq. f_equal. lia.
  - rewrite lookup_empty. unfold notifying.
    assert (Hge' : (S n <? 5)%nat = false) by (apply Nat.ltb_ge; lia).
    rewrite Hge'. repeat split; [lia | assumption | assumption].
Qed.

Lemma quiet_step_notifying (h : nat) (n : nat) (e : PanelEvent)
    (s : PanelState) :
  notifying h n s -> startsNoCountdown e = true ->
  notifying h (ticksOf h [e] + n) (panelStep e s).
Proof.
  intros Hn Hq. destruct e as [u | j o | h' | m | c]; cbn [ticksOf panelStep].
  - destruct u; exact Hn.
  - destruct o as [opt | response | error].
    + destruct j; exact Hn.
    + cbn in Hq. apply negb_true_iff in Hq.
      destruct j; cbn [outcomeStep onSuccess];
        unfold handleTrainSuccess, handleApplySuccess; rewrite Hq; exact Hn.
    + destruct j; exact Hn.
  - destruct (Nat.eqb_spec h h') as [<- | Hne].
    + apply countdownTick_notifying. exact Hn.
    + rewrite (countdownTick_other h h' n) by assumption. exact Hn.
  - exact Hn.
  - exact Hn.
Qed.

Lemma ticksOf_cons (h : nat) (e : PanelEvent) (tr : list PanelEvent) :
  ticksOf h (e :: tr) = (ticksOf h [e] + ticksOf h tr)%nat.
Proof. destruct e; cbn [ticksOf]; lia. Qed.

Lemma quiet_run_notifying (h : nat) (tr : list PanelEvent) :
  forall (n : nat) (s : PanelState),
    notifying h n s -> forallb startsNoCountdown tr = true ->
    notifying h (n + ticksOf h tr) (panelRun tr s).
Proof.
  induction tr as [| e tr IH]; intros n s Hn Hq.
  - cbn [ticksOf panelRun fold_left]. rewrite Nat.add_0_r. exact Hn.
  - cbn [forallb] in Hq. apply andb_true_iff in Hq as [He Htr].
    rewrite ticksOf_cons.
    replace (n + (ticksOf h [e] + ticksOf h tr))%nat
      with ((ticksOf h [e] + n) + ticksOf h tr)%nat by lia.
    change (panelRun (e :: tr) s) with (panelRun tr (panelStep e s)).
    apply IH; [| exact Htr]. apply quiet_step_notifying; assumption.
Qed.

Lemma delegated_success_notifying (j : Job) (response : Response)
    (s : PanelState) :
  intervals s = ∅ -> delegated response = true ->
  notifying (nextHandle s) 0
    (panelStep (EOutcome j (Succeeded (Some response))) s).
Proof.
  intros Hint Hdel. unfold notifying.
  destruct j; cbn [panelStep outcomeStep onSuccess];
    unfold handleTrainSuccess, handleApplySuccess;
    cbn [isDelegatedResponse]; rewrite Hdel;
    cbn; rewrite Hint; repeat split; apply insert_empty.
Qed.

(** A delegated success that arrives while an earlier countdown still
    runs does not clear it: both intervals write the one [countdown], and
    the older one hides the newer notification when it reaches 0.  Here
    the training notification is 3 ticks old when the apply job
    succeeds; two more ticks of the older interval show 1 and then hide
    the overlay, while the newer interval has not ticked once. *)
Lemma overlapping_countdowns_interfere :
  let delegatedOk := Succeeded (Some (mkResponse true None)) in
  let s := panelRun [EOutcome Train delegatedOk;
                     ECountdown 1; ECountdown 1; ECountdown 1;
                     EOutcome Apply delegatedOk] initialPanel in
  (countdown s = 5 /\ showSuccessOverlay s = true
   /\ intervals s = <[2%nat := 5]> {[1%nat := 2]})
  /\ countdown (panelRun [ECountdown 1] s) = 1
  /\ (let s' := panelRun [ECountdown 1; ECountdown 1] s in
      showSuccessOverlay s' = false /\ intervals s' = {[2%nat := 5]}).
Proof.
  cbv zeta. split; [split; [reflexivity | split; [reflexivity |]] |].
  - vm_compute. reflexivity.
  - split; [reflexivity |]. split; [reflexivity |]. vm_compute. reflexivity.
Qed.

(** C5 as stated fails: the panel has no manual dismissal.  While the
    notification of a delegated job shows, no action of the user on the
    panel hides it; only the countdown does. *)
Lemma no_manual_dismissal :
  showSuccessOverlay notifyingPanel = true
  /\ countdown notifyingPanel = 5
  /\ ~ (exists e : UserEvent,
          showSuccessOverlay (panelStep (EUser e) notifyingPanel) = false).
Proof.
  split; [reflexivity |]. split; [reflexivity |].
  intros [e He]. destruct e; discriminate He.
Qed.

(** C5, amended: a job whose option is selected and that then succeeds as
    delegated, with no countdown running before, is busy in between and
    idle afterwards; its notification shows with the countdown at 5.
    After any further events that start no other countdown, among them
    [n] ticks of the job's interval, the countdown is [5 - n] (0 from the
    fifth tick on), the notification is invisible exactly when the
    countdown has reached 0, and from then on the interval is cleared, so
    nothing decrements it further.  Actions of the user change none of
    this: there is no manual dismissal. *)
Theorem delegated_success_countdown (j : Job) (opt : ExecutionOption)
    (response : Response) (s : PanelState) (tr : list PanelEvent) :
  intervals s = ∅ ->
  delegated response = true ->
  forallb startsNoCountdown tr = true ->
  let s1 := panelStep (EOutcome j (OptionChosen opt)) s in
  let s2 := panelStep (EOutcome j (Succeeded (Some response))) s1 in
  let n := ticksOf (nextHandle s) tr in
  let s3 := panelRun tr s2 in
  busy j s1 = true
  /\ busy j s2 = false
  /\ showSuccessOverlay s2 = true
  /\ countdown s2 = 5
  /\ countdown s3 = 5 - Z.of_nat (Nat.min n 5)
  /\ showSuccessOverlay s3 = (n <? 5)%nat
  /\ (showSuccessOverlay s3 = false <-> countdown s3 = 0)
  /\ intervals s3
     = (if (n <? 5)%nat then {[nextHandle s := countdown s3]} else ∅)
  /\ (forall e : UserEvent,
        showSuccessOverlay (panelStep (EUser e) s3) = showSuccessOverlay s3
        /\ countdown (panelStep (EUser e) s3) = countdown s3).
Proof.
  intros Hint Hdel Hquiet s1 s2 n s3.
  assert (Hs1 : intervals s1 = ∅ /\ nextHandle s1 = nextHandle s).
  { subst s1. destruct j; cbn; auto. }
  destruct Hs1 as [Hint1 Hnext1].
  pose proof (delegated_success_notifying j response s1 Hint1 Hdel) as H2.
  rewrite Hnext1 in H2. fold s2 in H2.
  pose proof (quiet_run_notifying (nextHandle s) tr 0 s2 H2 Hquiet) as H3.
  cbn [Nat.add] in H3. fold n s3 in H3.
  destruct H2 as (Hc2 & Hv2 & _). destruct H3 as (Hc3 & Hv3 & Hi3).
  split; [subst s1; destruct j; reflexivity |].
  split.
  { subst s2. destruct j; cbn [panelStep outcomeStep onSuccess busy];
      unfold handleTrainSuccess, handleApplySuccess;
      cbn [isDelegatedResponse]; rewrite Hdel; reflexivity. }
  split; [exact Hv2 |]. split; [exact Hc2 |]. split; [exact Hc3 |].
  split; [exact Hv3 |]. split.
  { rewrite Hv3, Hc3. destruct (Nat.ltb_spec n 5); split; intros; try lia;
      discriminate. }
  split.
  { rewrite Hi3, Hc3. destruct (Nat.ltb_spec n 5); [| reflexivity].
    f_equal. lia. }
  intros e. destruct e; split; reflexivity.
Qed.

Lemma delegated_success_countdown_witness :
  let tr := [ECountdown 1; EUser (ClickTab ApplyTab); ECountdown 1;
             ECountdown 1] in
  let s3 := panelRun tr notifyingPanel in
  countdown s3 = 5 - Z.of_nat (Nat.min (ticksOf 1 tr) 5)
  /\ showSuccessOverlay s3 = (ticksOf 1 tr <? 5)%nat.
Proof.
  pose proof (delegated_success_countdown Train (mkOption true)
                (mkResponse true None) initialPanel
                [ECountdown 1; EUser (ClickTab ApplyTab); ECountdown 1;
                 ECountdown 1] eq_refl eq_refl eq_refl) as H.
  cbv zeta in H. destruct H as (_ & _ & _ & _ & Hc & Hv & _).
  split; [exact Hc | exact Hv].
Defined.

(** ** The empty-menu probe *)

(** A click while the poll is running changes nothing: [isCheckingMenu]
    is set to the value it has, and the effect does not run again. *)
Lemma click_while_checking (disabled : bool) (s : ButtonState) :
  isCheckingMenu s = true -> buttonStep (WrapperClick disabled) s = s.
Proof.
  intros Hchk. unfold buttonStep, commit. cbn [handle].
  unfold handleWrapperClick. destruct s as [w c r st tm nx ck bc].
  cbn in Hchk. subst c. destruct disabled; reflexivity.
Qed.

Lemma pollInvariant_clock (t : nat) (s : ButtonState) :
  pollInvariant s -> pollInvariant (withClock t s).
Proof. destruct s; exact id. Qed.

Lemma pollInvariant_click (disabled : bool) (s : ButtonState) :
  pollInvariant s -> pollInvariant (buttonStep (WrapperClick disabled) s).
Proof.
  intros Hinv. destruct (isCheckingMenu s) eqn:Hchk.
  - rewrite click_while_checking by assumption. exact Hinv.
  - unfold pollInvariant in Hinv. rewrite Hchk in Hinv.
    destruct Hinv as [Htm Hst].
    destruct s as [w c r st tm nx ck bc]. cbn in Hchk, Htm, Hst. subst.
    destruct disabled; cbn.
    + split; reflexivity.
    + exists nx, (S nx), (ck + 500)%nat.
      split; [lia |]. split; [lia |]. split; [lia |].
      split; [reflexivity |]. split; [reflexivity |].
      left. exists (ck + 100)%nat.
      rewrite insert_insert_ne by lia. reflexivity.
Qed.

Lemma pollInvariant_option (s : ButtonState) :
  pollInvariant s -> pollInvariant (buttonStep OptionSelected s).
Proof.
  intros Hinv. destruct s as [w c r st tm nx ck bc].
  unfold buttonStep, commit. cbn. rewrite eqb_reflx. exact Hinv.
Qed.

(** What a check that found a visible menu leaves behind, before the
    commit: the timers and the ref are untouched. *)
Lemma checkForEmptyMenu_found (menus : list Menu) (menu : Menu)
    (s : ButtonState) :
  List.find menuVisible menus = Some menu ->
  let s' := checkForEmptyMenu menus s in
  isCheckingMenu s' = staysChecking menu
  /\ showNoTargetsWarning s'
     = (if Nat.eqb (menuItems menu) 0 then true else showNoTargetsWarning s)
  /\ backdropClicks s'
     = (if Nat.eqb (menuItems menu) 0 && hasBackdrop menu
        then S (backdropClicks s) else backdropClicks s)
  /\ checkTimeoutRef s' = checkTimeoutRef s
  /\ stopTimeout s' = stopTimeout s
  /\ timeouts s' = timeouts s
  /\ nextTimeout s' = nextTimeout s
  /\ clock s' = clock s.
Proof.
  intros Hfind. cbv zeta. unfold checkForEmptyMenu, staysChecking.
  rewrite Hfind. unfold backdropClick, handleWrapperClick.
  destruct (Nat.eqb (menuItems menu) 0), (hasBackdrop menu),
    (bubblesToWrapper menu) as [[] |], s; cbn; repeat split.
Qed.

(** The commit after a callback that ran while the flag was set and left
    only the stop timeout pending: nothing happens when the flag is
    still set, and the cleanup clears the stop timeout when it is not. *)
Lemma commit_after_callback (s : ButtonState) (h2 : nat) (tm : Timeout) :
  stopTimeout s = Some h2 -> timeouts s = {[h2 := tm]} ->
  (forall h1, checkTimeoutRef s = Some h1 -> h1 <> h2) ->
  (isCheckingMenu s = true -> commit true s = s)
  /\ (isCheckingMenu s = false ->
      isCheckingMenu (commit true s) = false
      /\ timeouts (commit true s) = ∅
      /\ stopTimeout (commit true s) = None
      /\ checkTimeoutRef (commit true s) = checkTimeoutRef s
      /\ nextTimeout (commit true s) = nextTimeout s).
Proof.
  intros Hst Htm Hne. destruct s as [w c r st tms nx ck bc].
  cbn in Hst, Htm, Hne. subst st tms. split; intros Hc; cbn in Hc; subst c.
  - reflexivity.
  - unfold commit, runCleanup, runEffect, clearTimeout. cbn.
    destruct r as [h1 |]; cbn.
    + rewrite delete_singleton_ne by (apply Hne; reflexivity).
      rewrite delete_singleton_eq. repeat split.
    + rewrite delete_singleton_eq. repeat split.
Qed.

Lemma pollInvariant_fire (h : nat) (menus : list Menu) (s : ButtonState) :
  pollInvariant s -> pollInvariant (buttonStep (TimeoutFires h menus) s).
Proof.
  intros Hinv. destruct s as [w c r st tm nx ck bc].
  unfold pollInvariant in Hinv. cbn in Hinv. destruct c.
  - destruct Hinv as (h1 & h2 & d2 & Hne & Hlt1 & Hlt2 & -> & -> & Hshape).
    unfold buttonStep, handle, fireTimeout.
    cbn [timeouts isCheckingMenu].
    destruct Hshape as [[d1 ->] | ->].
    + destruct (decide (h = h1)) as [-> | Hn1].
      * rewrite lookup_insert_eq. cbn [callback].
        unfold clearTimeout. cbn [timeouts nextTimeout].
        rewrite delete_insert_eq, delete_singleton_ne by done.
        destruct (List.find menuVisible menus) as [menu |] eqn:Hfind.
        -- match goal with
           | |- pollInvariant (commit true (checkForEmptyMenu menus ?s0)) =>
               destruct (checkForEmptyMenu_found menus menu s0 Hfind)
                 as (Hc & _ & _ & Hr & Hst & Htm & Hnx & _);
               destruct (commit_after_callback (checkForEmptyMenu menus s0)
                           h2 (mkTimeout StopChecking d2) Hst Htm)
                 as [Hstay Hend]
           end.
           { intros h1' Hr'. rewrite Hr in Hr'. cbn in Hr'. congruence. }
           destruct (staysChecking menu).
           ++ rewrite (Hstay Hc). unfold pollInvariant. rewrite Hc.
              exists h1, h2, d2. rewrite Hr, Hst, Htm, Hnx. cbn.
              repeat (split; [assumption || reflexivity |]). right. reflexivity.
           ++ destruct (Hend Hc) as (Hc' & Htm' & Hst' & _).
              unfold pollInvariant. rewrite Hc'. split; assumption.
        -- unfold checkForEmptyMenu. rewrite Hfind. cbn.
           exists nx, h2, d2.
           split; [lia |]. split; [lia |]. split; [lia |].
           split; [reflexivity |]. split; [reflexivity |].
           left. exists (ck + 50)%nat. reflexivity.
      * destruct (decide (h = h2)) as [-> | Hn2].
        -- rewrite lookup_insert_ne by done. rewrite lookup_singleton_eq.
           cbn [callback]. unfold clearTimeout, stopChecking, commit.
           cbn. rewrite delete_insert_ne by done.
           rewrite delete_singleton_eq, delete_insert_eq, !delete_empty.
           split; reflexivity.
        -- rewrite lookup_insert_ne by done.
           rewrite lookup_singleton_ne by done.
           unfold commit. cbn. exists h1, h2, d2.
           repeat (split; [assumption || reflexivity |]). left. eauto.
    + destruct (decide (h = h2)) as [-> | Hn2].
      * rewrite lookup_singleton_eq.
        cbn [callback]. unfold clearTimeout, stopChecking, commit.
        cbn. rewrite delete_singleton_eq, !delete_empty.
        split; reflexivity.
      * rewrite lookup_singleton_ne by done.
        unfold commit. cbn. exists h1, h2, d2.
        repeat (split; [assumption || reflexivity |]). right. reflexivity.
  - destruct Hinv as [-> ->].
    unfold buttonStep, handle, fireTimeout. cbn [timeouts].
    rewrite lookup_empty. unfold commit. cbn. split; reflexivity.
Qed.

Lemma pollInvariant_step (e : ButtonEvent) (s : ButtonState) :
  pollInvariant s -> pollInvariant (buttonStep e s).
Proof.
  destruct e.
  - apply pollInvariant_click.
  - apply pollInvariant_option.
  - apply pollInvariant_fire.
Qed.

Lemma reachable_pollInvariant (s : ButtonState) :
  reachable s -> pollInvariant s.
Proof.
  induction 1 as [| [t e] s s' _ IH Hstep].
  - split; reflexivity.
  - unfold timedStep in Hstep. destruct (feasible t e s); [| discriminate].
    injection Hstep as <-.
    apply pollInvariant_step, pollInvariant_clock, IH.
Qed.

Lemma reachable_pollingButton : reachable pollingButton.
Proof.
  apply (reachable_step (0%nat, WrapperClick false) initialButton).
  - apply reachable_initial.
  - vm_compute. reflexivity.
Defined.


(** After the probe closed the button's own empty menu, the flag is
    cleared by the stop timeout only: it fires 500 ms after the first
    click, and a click after that starts a fresh poll. *)
Lemma flag_cleared_by_stop_timeout :
  exists s',
    timedRun [(0%nat, WrapperClick false);
              (100%nat, TimeoutFires 1 [emptyMenu]);
              (500%nat, TimeoutFires 2 [])] initialButton = Some s'
    /\ showNoTargetsWarning s' = true
    /\ isCheckingMenu s' = false
    /\ timeouts s' = ∅
    /\ exists s'',
         timedStep (600%nat, WrapperClick false) s' = Some s''
         /\ isCheckingMenu s'' = true
         /\ timeouts s''
            = {[ 3%nat := mkTimeout CheckForEmptyMenu 700;
                 4%nat := mkTimeout StopChecking 1100 ]}.
Proof.
  eexists. split; [vm_compute; reflexivity |].
  split; [reflexivity |]. split; [reflexivity |]. split; [reflexivity |].
  eexists. split; [vm_compute; reflexivity |].
  split; [reflexivity |]. vm_compute. reflexivity.
Qed.

(** The empty menu of another component ends the poll at once: its
    backdrop click does not reach the wrapper, the flag is cleared and
    the cleanup clears the stop timeout. *)
Lemma foreign_empty_menu_ends_poll :
  exists s',
    timedRun [(0%nat, WrapperClick false);
              (100%nat, TimeoutFires 1 [foreignEmptyMenu])] initialButton
    = Some s'
    /\ showNoTargetsWarning s' = true
    /\ isCheckingMenu s' = false
    /\ timeouts s' = ∅.
Proof.
  eexists. split; [vm_compute; reflexivity |].
  split; [reflexivity |]. split; reflexivity.
Qed.

(** A second click late in the first poll gets no polling window of its
    own: the first poll stops 500 ms after the first click, and a menu
    that opens after that is not looked at, since no timeout is left. *)
Lemma late_second_trigger_is_not_polled :
  exists s',
    timedRun [(0%nat, WrapperClick false); (100%nat, TimeoutFires 1 []);
              (150%nat, TimeoutFires 3 []); (200%nat, TimeoutFires 4 []);
              (250%nat, TimeoutFires 5 []); (300%nat, TimeoutFires 6 []);
              (350%nat, TimeoutFires 7 []); (400%nat, TimeoutFires 8 []);
              (450%nat, TimeoutFires 9 []); (470%nat, WrapperClick false);
              (500%nat, TimeoutFires 2 [])] initialButton
    = Some s'
    /\ isCheckingMenu s' = false
    /\ showNoTargetsWarning s' = false
    /\ timeouts s' = ∅.
Proof.
  eexists. split; [vm_compute; reflexivity |].
  split; [reflexivity |]. split; reflexivity.
Qed.



(* ===================================================================== *)
(** * Further properties of the code                                     *)
(* ===================================================================== *)

(** ** Tag statistics, for every snapshot *)

(** X1: the four category counts add up to [total_count] for every
    snapshot, consistent or not: what the overlap takes from the
    exclusive counts it adds back, and the untagged count is the rest. *)
Theorem tagStats_sum_always_total (tagCounts : gmap string Z)
    (totalSampleCount : option Z) :
  let st := tagStats tagCounts totalSampleCount in
  train_count st + val_count st + both_count st + untagged_count st
  = total_count st
  /\ total_count st = or_zero totalSampleCount.
Proof.
  intros st. subst st. rewrite total_count_eq. split; [stats_arith | reflexivity].
Qed.

(** X2: the clamp of [untaggedCount] never takes effect: for every
    snapshot the untagged count is the total minus the smaller of
    [train + val] and the total, and it is never negative. *)
Theorem untagged_is_total_minus_tagged (tagCounts : gmap string Z)
    (totalSampleCount : option Z) :
  let st := tagStats tagCounts totalSampleCount in
  untagged_count st
  = or_zero totalSampleCount
    - Z.min (or_zero (tagCounts !! "train") + or_zero (tagCounts !! "val"))
        (or_zero totalSampleCount)
  /\ or_zero totalSampleCount
     - (train_count st + val_count st + both_count st) >= 0
  /\ 0 <= untagged_count st.
Proof.
  intros st. subst st. repeat split; stats_arith.
Qed.

(** X3: for every snapshot the panel reports ready to train exactly when
    both raw counts are positive or the two counts together exceed the
    total. *)
Theorem isReadyToTrain_raw_counts (tagCounts : gmap string Z)
    (totalSampleCount : option Z) :
  isReadyToTrain (tagStats tagCounts totalSampleCount) = true <->
  (0 < or_zero (tagCounts !! "train") /\ 0 < or_zero (tagCounts !! "val"))
  \/ or_zero totalSampleCount
     < or_zero (tagCounts !! "train") + or_zero (tagCounts !! "val").
Proof.
  rewrite isReadyToTrain_spec. stats_arith.
Qed.

(** X4: with non-negative raw counts, the train-only count is negative
    exactly when [val] exceeds the total, and the val-only count exactly
    when [train] does; neither is ever below minus the other raw count. *)
Theorem exclusive_counts_sign (tagCounts : gmap string Z)
    (totalSampleCount : option Z) :
  0 <= or_zero (tagCounts !! "train") ->
  0 <= or_zero (tagCounts !! "val") ->
  0 <= or_zero totalSampleCount ->
  let st := tagStats tagCounts totalSampleCount in
  (train_count st < 0 <-> or_zero totalSampleCount < or_zero (tagCounts !! "val"))
  /\ (val_count st < 0 <-> or_zero totalSampleCount < or_zero (tagCounts !! "train"))
  /\ - or_zero (tagCounts !! "val") <= train_count st
  /\ - or_zero (tagCounts !! "train") <= val_count st.
Proof.
  intros Htrain Hval Htotal st. subst st. repeat split; stats_arith.
Qed.

Lemma exclusive_counts_sign_witness :
  let st := tagStats (snapshot 10 0) (Some 5) in
  (train_count st < 0 <-> or_zero (Some 5) < or_zero (snapshot 10 0 !! "val"))
  /\ (val_count st < 0 <-> or_zero (Some 5) < or_zero (snapshot 10 0 !! "train"))
  /\ - or_zero (snapshot 10 0 !! "val") <= train_count st
  /\ - or_zero (snapshot 10 0 !! "train") <= val_count st.
Proof.
  apply (exclusive_counts_sign (snapshot 10 0) (Some 5)).
  - rewrite snapshot_train. simpl. lia.
  - rewrite snapshot_val. simpl. lia.
  - simpl. lia.
Defined.

(** ** Ratios as percentages *)

Lemma ratio_percent (count total : Z) :
  0 <= count <= total -> 0 < total ->
  exists q, fst (ratio count total) = Fin q /\ (0 <= q)%Q /\ (q <= 100)%Q.
Proof.
  intros Hcount Hpos. destruct (ratio_guarded count total) as (_ & _ & _ & Hval & _).
  rewrite (Hval Hpos). eexists. split; [reflexivity |].
  assert (Hq : (0 <= inject_Z count / inject_Z total)%Q
               /\ (inject_Z count / inject_Z total <= 1)%Q).
  { assert (Htq : (0 < inject_Z total)%Q).
    { change 0%Q with (inject_Z 0). rewrite <- Zlt_Qlt. exact Hpos. }
    split.
    - apply Qle_shift_div_l; [exact Htq |]. rewrite Qmult_0_l.
      change 0%Q with (inject_Z 0). rewrite <- Zle_Qle. lia.
    - apply Qle_shift_div_r; [exact Htq |]. rewrite Qmult_1_l.
      rewrite <- Zle_Qle. lia. }
  destruct Hq as [Hq0 Hq1]. split.
  - apply Qmult_le_0_compat; [exact Hq0 | discriminate].
  - apply (Qle_trans _ (1 * inject_Z 100)%Q).
    + apply Qmult_le_compat_r; [exact Hq1 | discriminate].
    + discriminate.
Qed.

(** X5: with consistent raw counts and a positive total, each of the
    four ratios is a finite number between 0 and 100. *)
Theorem ratios_are_percentages (tagCounts : gmap string Z)
    (totalSampleCount : option Z) :
  0 <= or_zero (tagCounts !! "train") <= or_zero totalSampleCount ->
  0 <= or_zero (tagCounts !! "val") <= or_zero totalSampleCount ->
  0 < or_zero totalSampleCount ->
  let st := tagStats tagCounts totalSampleCount in
  Forall (fun r : JsNum * list Z =>
            exists q, fst r = Fin q /\ (0 <= q)%Q /\ (q <= 100)%Q)
    [trainRatio st; valRatio st; bothRatio st; untaggedRatio st].
Proof.
  intros Htrain Hval Hpos st. subst st.
  unfold trainRatio, valRatio, bothRatio, untaggedRatio.
  rewrite total_count_eq.
  repeat constructor; apply ratio_percent; try assumption; stats_arith.
Qed.

Lemma ratios_are_percentages_witness :
  let st := tagStats (snapshot 60 60) (Some 100) in
  Forall (fun r : JsNum * list Z =>
            exists q, fst r = Fin q /\ (0 <= q)%Q /\ (q <= 100)%Q)
    [trainRatio st; valRatio st; bothRatio st; untaggedRatio st].
Proof.
  apply (ratios_are_percentages (snapshot 60 60) (Some 100)).
  - rewrite snapshot_train. simpl. lia.
  - rewrite snapshot_val. simpl. lia.
  - simpl. lia.
Defined.

(** ** The panel: outcomes, user actions and filters *)

(** X6: a success that is not delegated (among them a success with no
    response at all) leaves the job idle and creates no notification:
    overlay, message, countdown and the running intervals stay as they
    are, and the console gains exactly the two entries of the immediate
    path. *)
Theorem immediate_success_creates_no_notification (j : Job)
    (response : option Response) (p : PanelState) :
  isDelegatedResponse response = false ->
  let p' := outcomeStep j (Succeeded response) p in
  busy j p' = false
  /\ showSuccessOverlay p' = showSuccessOverlay p
  /\ successMessage p' = successMessage p
  /\ countdown p' = countdown p
  /\ intervals p' = intervals p
  /\ nextHandle p' = nextHandle p
  /\ exists first last,
       console p' = (console p
                     ++ [ConsoleLog first (Some (PResponse response));
                         ConsoleLog last None])%list.
Proof.
  intros Himm. destruct j; cbn [outcomeStep onSuccess];
    unfold handleTrainSuccess, handleApplySuccess; rewrite Himm; cbn;
    repeat (split; [reflexivity |]);
    eexists _, _; rewrite <- app_assoc; reflexivity.
Qed.

Lemma immediate_success_creates_no_notification_witness :
  let p' := outcomeStep Train (Succeeded None) notifyingPanel in
  busy Train p' = false
  /\ showSuccessOverlay p' = showSuccessOverlay notifyingPanel
  /\ successMessage p' = successMessage notifyingPanel
  /\ countdown p' = countdown notifyingPanel
  /\ intervals p' = intervals notifyingPanel
  /\ nextHandle p' = nextHandle notifyingPanel
  /\ exists first last,
       console p' = (console notifyingPanel
                     ++ [ConsoleLog first (Some (PResponse None));
                         ConsoleLog last None])%list.
Proof.
  apply (immediate_success_creates_no_notification Train None notifyingPanel).
  reflexivity.
Defined.

(** X7: what the button of one job reports never touches the other job:
    its busy flag and the [disabled] prop of its button stay as they
    are, and so do the view, the form, the active tab and the counts. *)
Theorem outcomes_leave_other_job_alone (j : Job) (o : Outcome)
    (s : PanelState) :
  let s' := outcomeStep j o s in
  busy (otherJob j) s' = busy (otherJob j) s
  /\ buttonDisabled (otherJob j) s' = buttonDisabled (otherJob j) s
  /\ view s' = view s /\ form s' = form s /\ activeTab s' = activeTab s
  /\ tagCounts s' = tagCounts s /\ totalSampleCount s' = totalSampleCount s.
Proof.
  destruct j, o as [opt | response | error];
    cbn [outcomeStep onOptionSelected onSuccess onError];
    unfold handleTrainSuccess, handleApplySuccess;
    try destruct (isDelegatedResponse response);
    repeat split; reflexivity.
Qed.

(** X8: no action of the user on the panel's own elements (tabs, bars,
    form inputs) changes the statistics, the busy flags, the [disabled]
    prop of either button, the notification or the console. *)
Theorem user_actions_frame (e : UserEvent) (s : PanelState) :
  let s' := userStep e s in
  panelStats s' = panelStats s
  /\ (forall j, busy j s' = busy j s /\ buttonDisabled j s' = buttonDisabled j s)
  /\ showSuccessOverlay s' = showSuccessOverlay s
  /\ successMessage s' = successMessage s
  /\ countdown s' = countdown s
  /\ intervals s' = intervals s
  /\ console s' = console s.
Proof.
  destruct e; cbn; (split; [reflexivity |]);
    (split; [intros []; split; reflexivity |]); repeat split; reflexivity.
Qed.

Lemma filterStages_shape (tag : option string) :
  (length (filterStages tag) <= 2)%nat
  /\ Forall (fun st => _cls st = MatchTags) (filterStages tag).
Proof.
  destruct tag as [t |]; cbn [filterStages].
  - destruct (String.eqb t "untagged"); [| destruct (String.eqb t "both")];
      cbn [length]; split; try lia; repeat constructor.
  - split; [cbn; lia | constructor].
Qed.

(** X9: a filter click replaces the view, it does not refine it: after
    two clicks the panel is as after the second alone.  Whatever the tag,
    the view set has at most two stages, all of class [MatchTags], and
    nothing but the view changes. *)
Theorem handleFilterByTag_replaces_view (t1 t2 : option string)
    (s : PanelState) :
  handleFilterByTag t2 (handleFilterByTag t1 s) = handleFilterByTag t2 s
  /\ (length (view (handleFilterByTag t1 s)) <= 2)%nat
  /\ Forall (fun st => _cls st = MatchTags) (view (handleFilterByTag t1 s))
  /\ setView (view s) (handleFilterByTag t1 s) = s.
Proof.
  split; [reflexivity |]. unfold handleFilterByTag. cbn [view setView].
  split; [apply filterStages_shape |]. split; [apply filterStages_shape |].
  destruct s; reflexivity.
Qed.

(** X10: every tag name other than "untagged" and "both" (a custom tag,
    the empty string) is filtered like "train" and "val": one stage
    matching that tag only. *)
Theorem handleFilterByTag_any_other_tag (t : string) (s : PanelState) :
  t <> "untagged" -> t <> "both" ->
  exists a, view (handleFilterByTag (Some t) s) = [a] /\ matchesOnlyTag t a.
Proof.
  intros H1 H2. unfold handleFilterByTag. cbn [view setView].
  rewrite filterStages_other_tag by assumption.
  eexists. split; [reflexivity |]. repeat split.
Qed.

Lemma handleFilterByTag_any_other_tag_witness :
  exists a, view (handleFilterByTag (Some "test") initialPanel) = [a]
            /\ matchesOnlyTag "test" a.
Proof.
  apply (handleFilterByTag_any_other_tag "test" initialPanel); discriminate.
Defined.

(** ** The panel's countdowns, in every reachable state *)

Lemma countdownInvariant_initial : countdownInvariant initialPanel.
Proof.
  split; [| split].
  - intros h c Hl. cbn in Hl. rewrite lookup_empty in Hl. discriminate.
  - cbn. lia.
  - discriminate.
Qed.

Lemma countdownInvariant_delegated (s : PanelState) :
  countdownInvariant s ->
  countdownInvariant
    (setInterval 5 (setCountdown 5 (setShowSuccessOverlay true s))).
Proof.
  intros (Hint & Hc & Hv). split; [| split].
  - intros h c. cbn. intros Hl.
    destruct (decide (nextHandle s = h)) as [<- | Hne].
    + rewrite lookup_insert_eq in Hl. injection Hl as <-. lia.
    + rewrite lookup_insert_ne in Hl by assumption.
      destruct (Hint h c Hl). lia.
  - cbn. lia.
  - intros _. cbn. apply insert_non_empty.
Qed.

Lemma countdownInvariant_tick (h : nat) (s : PanelState) :
  countdownInvariant s -> countdownInvariant (countdownTick h s).
Proof.
  intros (Hint & Hc & Hv). unfold countdownTick.
  destruct (intervals s !! h) as [c |] eqn:Hl;
    [| exact (conj Hint (conj Hc Hv))].
  destruct (Hint h c Hl) as [Hrange Hh].
  destruct (Z.eqb_spec (c - 1) 0) as [Hz | Hnz].
  - split; [| split].
    + intros h' c'. cbn. rewrite delete_insert_eq. intros Hl'.
      apply lookup_delete_Some in Hl' as [_ Hl']. exact (Hint h' c' Hl').
    + cbn. lia.
    + discriminate.
  - split; [| split].
    + intros h' c'. cbn. intros Hl'.
      destruct (decide (h = h')) as [<- | Hne].
      * rewrite lookup_insert_eq in Hl'. injection Hl' as <-. split; [lia | exact Hh].
      * rewrite lookup_insert_ne in Hl' by assumption. exact (Hint h' c' Hl').
    + cbn. lia.
    + intros _. cbn. apply insert_non_empty.
Qed.

Lemma countdownInvariant_step (e : PanelEvent) (s : PanelState) :
  countdownInvariant s -> countdownInvariant (panelStep e s).
Proof.
  intros Hinv. destruct e as [u | j o | h | m | n]; cbn [panelStep].
  - destruct u; exact Hinv.
  - destruct o as [opt | response | error].
    + destruct j; exact Hinv.
    + destruct j; cbn [outcomeStep onSuccess];
        unfold handleTrainSuccess, handleApplySuccess;
        (destruct (isDelegatedResponse response);
         [apply (countdownInvariant_delegated _ Hinv) | exact Hinv]).
    + destruct j; exact Hinv.
  - apply countdownInvariant_tick, Hinv.
  - exact Hinv.
  - exact Hinv.
Qed.

Lemma countdownInvariant_run (tr : list PanelEvent) :
  forall s, countdownInvariant s -> countdownInvariant (panelRun tr s).
Proof.
  induction tr as [| e tr IH]; intros s Hinv; [exact Hinv |].
  change (panelRun (e :: tr) s) with (panelRun tr (panelStep e s)).
  apply IH, countdownInvariant_step, Hinv.
Qed.

(** Ticking a running countdown as often as its count says clears it,
    hides the overlay and leaves 0 on display; other countdowns keep
    their counts. *)
Lemma countdown_runs_out (n : nat) :
  forall (s : PanelState) (h : nat),
    intervals s !! h = Some (Z.of_nat (S n)) ->
    let s' := panelRun (repeat (ECountdown h) (S n)) s in
    showSuccessOverlay s' = false
    /\ countdown s' = 0
    /\ intervals s' = delete h (intervals s)
    /\ nextHandle s' = nextHandle s.
Proof.
  induction n as [| n IH]; intros s h Hl.
  - cbn [repeat panelRun fold_left panelStep]. unfold countdownTick.
    rewrite Hl. change (Z.of_nat 1 - 1 =? 0) with true. cbv iota.
    cbn [showSuccessOverlay countdown intervals nextHandle
           setShowSuccessOverlay clearInterval withIntervals setCountdown].
    rewrite delete_insert_eq. repeat split.
  - change (repeat (ECountdown h) (S (S n)))
      with (ECountdown h :: repeat (ECountdown h) (S n)).
    change (panelRun (ECountdown h :: repeat (ECountdown h) (S n)) s)
      with (panelRun (repeat (ECountdown h) (S n)) (countdownTick h s)).
    assert (Hs : countdownTick h s
                 = setCountdown (Z.of_nat (S n))
                     (withIntervals (<[h := Z.of_nat (S n)]> (intervals s)) s)).
    { unfold countdownTick. rewrite Hl.
      replace (Z.of_nat (S (S n)) - 1) with (Z.of_nat (S n)) by lia.
      destruct (Z.eqb_spec (Z.of_nat (S n)) 0); [lia | reflexivity]. }
    rewrite Hs. cbv zeta.
    destruct (IH (setCountdown (Z.of_nat (S n))
                    (withIntervals (<[h := Z.of_nat (S n)]> (intervals s)) s)) h)
      as (Hv & Hc & Hi & Hn).
    { cbn. apply lookup_insert_eq. }
    split; [exact Hv |]. split; [exact Hc |]. split; [| exact Hn].
    rewrite Hi. cbn. apply delete_insert_eq.
Qed.

(** X11: in every state the panel can reach, whatever jobs, ticks and
    user actions led there, the displayed countdown is between 0 and 5,
    every running countdown holds a count between 1 and 5, and its
    handle is older than the next one to be handed out, so a new
    countdown never replaces a running one. *)
Theorem countdown_always_in_range (tr : list PanelEvent) :
  let s := panelRun tr initialPanel in
  0 <= countdown s <= 5
  /\ (forall h c, intervals s !! h = Some c -> 1 <= c <= 5)
  /\ intervals s !! nextHandle s = None.
Proof.
  intros s.
  destruct (countdownInvariant_run tr initialPanel countdownInvariant_initial)
    as (Hint & Hc & _). fold s in Hint, Hc.
  split; [exact Hc |]. split; [intros h c Hl; apply (Hint h c Hl) |].
  destruct (intervals s !! nextHandle s) as [c |] eqn:Hl; [| reflexivity].
  destruct (Hint _ _ Hl). lia.
Qed.

(** X12: the overlay cannot get stuck: in every reachable state in which
    it shows, some countdown is running, and ticking that countdown as
    often as its count says (at most 5 times) hides the overlay. *)
Theorem visible_overlay_has_running_countdown (tr : list PanelEvent) :
  let s := panelRun tr initialPanel in
  showSuccessOverlay s = true ->
  exists h c,
    intervals s !! h = Some c /\ 1 <= c <= 5
    /\ showSuccessOverlay
         (panelRun (repeat (ECountdown h) (Z.to_nat c)) s) = false.
Proof.
  intros s Hvis.
  destruct (countdownInvariant_run tr initialPanel countdownInvariant_initial)
    as (Hint & _ & Hrun). fold s in Hint, Hrun.
  destruct (map_choose _ (Hrun Hvis)) as (h & c & Hl).
  destruct (Hint h c Hl) as [Hrange _].
  exists h, c. split; [exact Hl |]. split; [exact Hrange |].
  destruct (Z.to_nat c) as [| n] eqn:Hn; [lia |].
  apply (countdown_runs_out n s h). rewrite Hl. f_equal. lia.
Qed.

Lemma visible_overlay_has_running_countdown_witness :
  let s := panelRun
             [EOutcome Train (Succeeded (Some (mkResponse true None)));
              ECountdown 1] initialPanel in
  exists h c,
    intervals s !! h = Some c /\ 1 <= c <= 5
    /\ showSuccessOverlay
         (panelRun (repeat (ECountdown h) (Z.to_nat c)) s) = false.
Proof.
  apply (visible_overlay_has_running_countdown
           [EOutcome Train (Succeeded (Some (mkResponse true None)));
            ECountdown 1]).
  reflexivity.
Defined.

(** X13: a running countdown with count [c >= 1], ticked [c] times with
    nothing in between, hides the overlay, shows 0 and clears itself;
    every other countdown keeps running with its count.  This also holds
    when several countdowns overlap. *)
Theorem countdown_clears_itself (s : PanelState) (h : nat) (c : Z) :
  intervals s !! h = Some c -> 1 <= c ->
  let s' := panelRun (repeat (ECountdown h) (Z.to_nat c)) s in
  showSuccessOverlay s' = false
  /\ countdown s' = 0
  /\ intervals s' !! h = None
  /\ (forall h', h' <> h -> intervals s' !! h' = intervals s !! h').
Proof.
  intros Hl Hc.
  destruct (Z.to_nat c) as [| n] eqn:Hn; [lia |].
  destruct (countdown_runs_out n s h) as (Hv & Hz & Hi & _).
  { rewrite Hl. f_equal. lia. }
  cbv zeta. split; [exact Hv |]. split; [exact Hz |]. rewrite Hi. split.
  - apply lookup_delete_eq.
  - intros h' Hne. apply lookup_delete_ne. congruence.
Qed.

Lemma countdown_clears_itself_witness :
  let s' := panelRun (repeat (ECountdown 1%nat) (Z.to_nat 5)) notifyingPanel in
  showSuccessOverlay s' = false
  /\ countdown s' = 0
  /\ intervals s' !! 1%nat = None
  /\ (forall h', h' <> 1%nat ->
                 intervals s' !! h' = intervals notifyingPanel !! h').
Proof.
  apply (countdown_clears_itself notifyingPanel 1%nat 5).
  - vm_compute. reflexivity.
  - lia.
Defined.

(** ** The probe: what each callback does to a running poll *)

(** The commit never touches the warning, the flag or the backdrop count. *)
Lemma commit_frame (was : bool) (s : ButtonState) :
  showNoTargetsWarning (commit was s) = showNoTargetsWarning s
  /\ isCheckingMenu (commit was s) = isCheckingMenu s
  /\ backdropClicks (commit was s) = backdropClicks s
  /\ clock (commit was s) = clock s.
Proof.
  unfold commit, runEffect, runCleanup.
  destruct s as [w c r st tm nx ck bc]. cbn.
  destruct (Bool.eqb was c); [repeat split |].
  destruct st as [h2 |], r as [h1 |], c; repeat split.
Qed.

(** A pending check is the one in [checkTimeoutRef], next to the stop
    timeout. *)
Lemma pending_check (s : ButtonState) (h : nat) (tm : Timeout) :
  pollInvariant s -> timeouts s !! h = Some tm ->
  callback tm = CheckForEmptyMenu ->
  isCheckingMenu s = true /\ checkTimeoutRef s = Some h
  /\ exists h2 d2,
       h <> h2 /\ (h < nextTimeout s)%nat /\ (h2 < nextTimeout s)%nat
       /\ stopTimeout s = Some h2
       /\ timeouts s = <[h := tm]> {[h2 := mkTimeout StopChecking d2]}.
Proof.
  unfold pollInvariant. intros Hinv Hl Hcb.
  destruct (isCheckingMenu s).
  - destruct Hinv
      as (h1 & h2 & d2 & Hne & Hlt1 & Hlt2 & Hr & Hst & [[d1 Htm] | Htm]);
      rewrite Htm in Hl.
    + destruct (decide (h1 = h)) as [-> | Hn1].
      * rewrite lookup_insert_eq in Hl. injection Hl as <-.
        split; [reflexivity |]. split; [exact Hr |].
        exists h2, d2. repeat split; assumption.
      * rewrite lookup_insert_ne in Hl by assumption.
        apply lookup_singleton_Some in Hl as [_ <-]. discriminate Hcb.
    + apply lookup_singleton_Some in Hl as [_ <-]. discriminate Hcb.
  - destruct Hinv as [Htm _]. rewrite Htm, lookup_empty in Hl. discriminate.
Qed.

(** A pending stop timeout is the one the cleanup captured; the only
    other pending timeout, if there is one, is the check in
    [checkTimeoutRef]. *)
Lemma pending_stop (s : ButtonState) (h : nat) (tm : Timeout) :
  pollInvariant s -> timeouts s !! h = Some tm ->
  callback tm = StopChecking ->
  isCheckingMenu s = true /\ stopTimeout s = Some h
  /\ exists h1,
       h1 <> h /\ checkTimeoutRef s = Some h1
       /\ ((exists d1,
              timeouts s = <[h1 := mkTimeout CheckForEmptyMenu d1]> {[h := tm]})
           \/ timeouts s = {[h := tm]}).
Proof.
  unfold pollInvariant. intros Hinv Hl Hcb.
  destruct (isCheckingMenu s).
  - destruct Hinv
      as (h1 & h2 & d2 & Hne & Hlt1 & Hlt2 & Hr & Hst & [[d1 Htm] | Htm]);
      rewrite Htm in Hl.
    + destruct (decide (h1 = h)) as [-> | Hn1].
      * rewrite lookup_insert_eq in Hl. injection Hl as <-. discriminate Hcb.
      * rewrite lookup_insert_ne in Hl by assumption.
        apply lookup_singleton_Some in Hl as [-> <-].
        split; [reflexivity |]. split; [exact Hst |].
        exists h1. split; [assumption |]. split; [exact Hr |]. left. eauto.
    + apply lookup_singleton_Some in Hl as [-> <-].
      split; [reflexivity |]. split; [exact Hst |].
      exists h1. split; [assumption |]. split; [exact Hr |]. right. exact Htm.
  - destruct Hinv as [Htm _]. rewrite Htm, lookup_empty in Hl. discriminate.
Qed.

(** The state after a check that found a visible menu: the flag stays
    set, with the stop timeout pending, exactly when the menu is the
    button's own empty menu with a backdrop and the button is enabled;
    otherwise the poll is over and no timeout is left. *)
Lemma fire_check_found (s : ButtonState) (h : nat) (tm : Timeout)
    (menus : list Menu) (menu : Menu) :
  pollInvariant s -> timeouts s !! h = Some tm ->
  callback tm = CheckForEmptyMenu ->
  List.find menuVisible menus = Some menu ->
  let s' := buttonStep (TimeoutFires h menus) s in
  showNoTargetsWarning s'
  = (if Nat.eqb (menuItems menu) 0 then true else showNoTargetsWarning s)
  /\ isCheckingMenu s' = staysChecking menu
  /\ backdropClicks s'
     = (if Nat.eqb (menuItems menu) 0 && hasBackdrop menu
        then S (backdropClicks s) else backdropClicks s)
  /\ timeouts s'
     = (if staysChecking menu then delete h (timeouts s) else ∅).
Proof.
  intros Hinv Hl Hcb Hfind.
  destruct (pending_check s h tm Hinv Hl Hcb)
    as (Hchk & Hr & h2 & d2 & Hne & _ & _ & Hst & Htm).
  destruct s as [w c r st tms nx ck bc]. cbn in Hchk, Hr, Hst, Htm, Hl.
  subst c r st tms. destruct tm as [k d]. cbn in Hcb. subst k. cbv zeta.
  unfold buttonStep, handle, fireTimeout. cbn [timeouts isCheckingMenu].
  rewrite lookup_insert_eq. cbn [callback].
  unfold clearTimeout. cbn [timeouts nextTimeout].
  rewrite delete_insert_eq, delete_singleton_ne by congruence.
  match goal with
  | |- context [commit true (checkForEmptyMenu menus ?s0)] =>
      destruct (checkForEmptyMenu_found menus menu s0 Hfind)
        as (Hc & Hw & Hb & Hr & Hst & Htm & _);
      destruct (commit_after_callback (checkForEmptyMenu menus s0)
                  h2 (mkTimeout StopChecking d2) Hst Htm)
        as [Hstay Hend];
      [intros h1' Hr'; rewrite Hr in Hr'; cbn in Hr'; congruence |];
      destruct (commit_frame true (checkForEmptyMenu menus s0))
        as (Hw' & Hc' & Hb' & _)
  end.
  rewrite Hw', Hc', Hb', Hw, Hc, Hb. cbn [showNoTargetsWarning backdropClicks].
  repeat (split; [reflexivity |]).
  destruct (staysChecking menu).
  - rewrite (Hstay Hc). exact Htm.
  - apply (Hend Hc).
Qed.

Lemma find_invisible (menus : list Menu) :
  Forall (fun m => (rectWidth m <= 0)%Q \/ (rectHeight m <= 0)%Q) menus ->
  List.find menuVisible menus = None.
Proof.
  induction 1 as [| m menus Hm _ IH]; [reflexivity |].
  cbn [List.find]. unfold menuVisible at 1.
  destruct Hm as [Hw | Hh].
  - apply Qle_bool_iff in Hw. rewrite Hw. exact IH.
  - apply Qle_bool_iff in Hh. rewrite Hh, andb_false_r. exact IH.
Qed.

(** X14: the warning appears for one reason only.  If an event turns
    [showNoTargetsWarning] on, the event is a pending check firing and
    the first visible menu it saw has no item; the menu's backdrop, if
    it has one, was clicked exactly once; and afterwards the flag is
    cleared, unless that click bubbled to the wrapper of an enabled
    button, which sets the flag again. *)
Theorem warning_only_for_empty_visible_menu (e : ButtonEvent)
    (s : ButtonState) :
  showNoTargetsWarning s = false ->
  showNoTargetsWarning (buttonStep e s) = true ->
  exists h menus tm menu,
    e = TimeoutFires h menus
    /\ timeouts s !! h = Some tm /\ callback tm = CheckForEmptyMenu
    /\ List.find menuVisible menus = Some menu /\ menuItems menu = 0%nat
    /\ isCheckingMenu (buttonStep e s)
       = (hasBackdrop menu
          && match bubblesToWrapper menu with
             | Some disabled => negb disabled
             | None => false
             end)
    /\ backdropClicks (buttonStep e s)
       = (if hasBackdrop menu then S (backdropClicks s) else backdropClicks s).
Proof.
  intros Hoff Hon.
  destruct (commit_frame (isCheckingMenu s) (handle e s)) as (Hw & Hc & Hb & _).
  fold (buttonStep e s) in Hw, Hc, Hb. rewrite Hw in Hon. rewrite Hc, Hb.
  clear Hw Hc Hb.
  destruct e as [disabled | | h menus]; cbn [handle] in *.
  - unfold handleWrapperClick in Hon.
    destruct disabled, s; cbn in *; congruence.
  - destruct s; cbn in *; congruence.
  - unfold fireTimeout in *.
    destruct (timeouts s !! h) as [tm |] eqn:Hl; [| congruence].
    destruct tm as [[] d]; cbn [callback] in *.
    + destruct (List.find menuVisible menus) as [menu |] eqn:Hfind.
      * destruct (checkForEmptyMenu_found menus menu (clearTimeout h s) Hfind)
          as (Hc & Hw & Hb & _).
        rewrite Hw in Hon. rewrite Hc, Hb.
        destruct (Nat.eqb_spec (menuItems menu) 0) as [Hz | Hnz].
        -- exists h, menus, (mkTimeout CheckForEmptyMenu d), menu.
           repeat (split; [reflexivity || assumption |]).
           unfold staysChecking. rewrite Hz. cbn [Nat.eqb andb].
           destruct s; split; reflexivity.
        -- destruct s; cbn in *; congruence.
      * unfold checkForEmptyMenu in Hon. rewrite Hfind in Hon.
        destruct s as [w c [r |] st tm nx ck bc]; cbn in *; congruence.
    + unfold stopChecking in Hon.
      destruct s as [w c [r |] st tm nx ck bc]; cbn in *; congruence.
Qed.

Lemma warning_only_for_empty_visible_menu_witness :
  exists h menus tm menu,
    TimeoutFires 1 [emptyMenu] = TimeoutFires h menus
    /\ timeouts pollingButton !! h = Some tm
    /\ callback tm = CheckForEmptyMenu
    /\ List.find menuVisible menus = Some menu /\ menuItems menu = 0%nat
    /\ isCheckingMenu (buttonStep (TimeoutFires 1 [emptyMenu]) pollingButton)
       = (hasBackdrop menu
          && match bubblesToWrapper menu with
             | Some disabled => negb disabled
             | None => false
             end)
    /\ backdropClicks (buttonStep (TimeoutFires 1 [emptyMenu]) pollingButton)
       = (if hasBackdrop menu then S (backdropClicks pollingButton)
          else backdropClicks pollingButton).
Proof.
  apply (warning_only_for_empty_visible_menu
           (TimeoutFires 1 [emptyMenu]) pollingButton).
  - reflexivity.
  - vm_compute. reflexivity.
Defined.

(** X15: a check that sees a visible menu with at least one item ends
    the poll silently: the warning is as before, no backdrop is clicked,
    and no timeout of the poll is left pending. *)
Theorem menu_with_items_stops_silently (s : ButtonState) (h : nat)
    (tm : Timeout) (menus : list Menu) (menu : Menu) :
  reachable s ->
  timeouts s !! h = Some tm -> callback tm = CheckForEmptyMenu ->
  List.find menuVisible menus = Some menu ->
  menuItems menu <> 0%nat ->
  let s' := buttonStep (TimeoutFires h menus) s in
  showNoTargetsWarning s' = showNoTargetsWarning s
  /\ isCheckingMenu s' = false
  /\ timeouts s' = ∅
  /\ backdropClicks s' = backdropClicks s.
Proof.
  intros Hreach Hl Hcb Hfind Hitems.
  apply reachable_pollInvariant in Hreach.
  pose proof (fire_check_found s h tm menus menu Hreach Hl Hcb Hfind) as H.
  apply Nat.eqb_neq in Hitems. unfold staysChecking in H.
  rewrite Hitems in H. cbn [andb] in H.
  destruct H as (Hw & Hc & Hb & Htm). cbv zeta. auto.
Qed.

Lemma menu_with_items_stops_silently_witness :
  let menu := mkMenu 160 90 3 true (Some false) in
  let s' := buttonStep (TimeoutFires 1 [menu]) pollingButton in
  showNoTargetsWarning s' = showNoTargetsWarning pollingButton
  /\ isCheckingMenu s' = false
  /\ timeouts s' = ∅
  /\ backdropClicks s' = backdropClicks pollingButton.
Proof.
  apply (menu_with_items_stops_silently pollingButton 1%nat
           (mkTimeout CheckForEmptyMenu 100) [mkMenu 160 90 3 true (Some false)]
           (mkMenu 160 90 3 true (Some false)) reachable_pollingButton).
  - vm_compute. reflexivity.
  - reflexivity.
  - vm_compute. reflexivity.
  - discriminate.
Defined.

(** X16: when the stop timeout fires, the poll ends silently: the
    pending check is cancelled with it, [checkTimeoutRef] is reset to
    null, the warning is as before and no backdrop is clicked. *)
Theorem stop_timeout_ends_poll_silently (s : ButtonState) (h : nat)
    (tm : Timeout) (menus : list Menu) :
  reachable s ->
  timeouts s !! h = Some tm -> callback tm = StopChecking ->
  let s' := buttonStep (TimeoutFires h menus) s in
  showNoTargetsWarning s' = showNoTargetsWarning s
  /\ isCheckingMenu s' = false
  /\ timeouts s' = ∅
  /\ checkTimeoutRef s' = None
  /\ backdropClicks s' = backdropClicks s.
Proof.
  intros Hreach Hl Hcb. apply reachable_pollInvariant in Hreach.
  destruct (pending_stop s h tm Hreach Hl Hcb)
    as (Hchk & Hst & h1 & Hne & Hr & Hshape).
  destruct s as [w c r st tms nx ck bc]. cbn in Hchk, Hst, Hr, Hshape, Hl.
  subst c st r. destruct tm as [k d]. cbn in Hcb. subst k. cbv zeta.
  unfold buttonStep, handle, fireTimeout. cbn [timeouts isCheckingMenu].
  destruct Hshape as [[d1 ->] | ->].
  - rewrite lookup_insert_ne by assumption. rewrite lookup_singleton_eq.
    cbn [callback]. unfold clearTimeout, stopChecking, commit. cbn.
    rewrite delete_insert_ne by congruence.
    rewrite delete_singleton_eq, delete_insert_eq, !delete_empty.
    repeat split.
  - rewrite lookup_singleton_eq.
    cbn [callback]. unfold clearTimeout, stopChecking, commit. cbn.
    rewrite delete_singleton_eq, !delete_empty.
    repeat split.
Qed.

Lemma stop_timeout_ends_poll_silently_witness :
  let s' := buttonStep (TimeoutFires 2 []) pollingButton in
  showNoTargetsWarning s' = showNoTargetsWarning pollingButton
  /\ isCheckingMenu s' = false
  /\ timeouts s' = ∅
  /\ checkTimeoutRef s' = None
  /\ backdropClicks s' = backdropClicks pollingButton.
Proof.
  apply (stop_timeout_ends_poll_silently pollingButton 2%nat
           (mkTimeout StopChecking 500) [] reachable_pollingButton).
  - vm_compute. reflexivity.
  - reflexivity.
Defined.

(** X17: menus of zero width or zero height are not looked into, empty
    or not: a check that sees only such menus (or none) shows no
    warning and arms exactly one next check, due 50 ms later under a
    fresh handle, while the stop timeout stays pending. *)
Theorem invisible_menus_are_skipped (s : ButtonState) (h : nat)
    (tm : Timeout) (menus : list Menu) :
  reachable s ->
  timeouts s !! h = Some tm -> callback tm = CheckForEmptyMenu ->
  Forall (fun m => (rectWidth m <= 0)%Q \/ (rectHeight m <= 0)%Q) menus ->
  let s' := buttonStep (TimeoutFires h menus) s in
  showNoTargetsWarning s' = showNoTargetsWarning s
  /\ isCheckingMenu s' = true
  /\ backdropClicks s' = backdropClicks s
  /\ checkTimeoutRef s' = Some (nextTimeout s)
  /\ timeouts s' !! nextTimeout s
     = Some (mkTimeout CheckForEmptyMenu (clock s + 50))
  /\ timeouts s' !! h = None
  /\ stopTimeout s' = stopTimeout s
  /\ (forall h2, stopTimeout s = Some h2 ->
                 timeouts s' !! h2 = timeouts s !! h2)
  /\ size (timeouts s') = 2%nat.
Proof.
  intros Hreach Hl Hcb Hinvis. apply reachable_pollInvariant in Hreach.
  apply find_invisible in Hinvis.
  destruct (pending_check s h tm Hreach Hl Hcb)
    as (Hchk & Hr & h2 & d2 & Hne & Hlt & Hlt2 & Hst & Htm).
  destruct s as [w c r st tms nx ck bc].
  cbn in Hchk, Hst, Hr, Htm, Hl, Hlt, Hlt2.
  subst c st r tms. destruct tm as [k d]. cbn in Hcb. subst k. cbv zeta.
  unfold buttonStep, handle, fireTimeout. cbn [timeouts isCheckingMenu].
  rewrite lookup_insert_eq. cbn [callback].
  unfold clearTimeout, checkForEmptyMenu. rewrite Hinvis.
  unfold commit. cbn.
  rewrite delete_insert_eq, delete_singleton_ne by congruence.
  assert (Hnx : nx <> h2) by lia. assert (Hnxh : nx <> h) by lia.
  repeat split.
  - apply lookup_insert_eq.
  - rewrite lookup_insert_ne by assumption.
    apply lookup_singleton_ne. congruence.
  - intros h2' [= <-]. rewrite !lookup_insert_ne by congruence. reflexivity.
  - rewrite map_size_insert_None by (apply lookup_singleton_ne; congruence).
    rewrite map_size_singleton. reflexivity.
Qed.

Lemma invisible_menus_are_skipped_witness :
  let menus := [mkMenu 0 40 0 true (Some false); mkMenu 160 0 0 false None] in
  let s' := buttonStep (TimeoutFires 1 menus) pollingButton in
  showNoTargetsWarning s' = showNoTargetsWarning pollingButton
  /\ isCheckingMenu s' = true
  /\ backdropClicks s' = backdropClicks pollingButton
  /\ checkTimeoutRef s' = Some (nextTimeout pollingButton)
  /\ timeouts s' !! nextTimeout pollingButton
     = Some (mkTimeout CheckForEmptyMenu (clock pollingButton + 50))
  /\ timeouts s' !! 1%nat = None
  /\ stopTimeout s' = stopTimeout pollingButton
  /\ (forall h2, stopTimeout pollingButton = Some h2 ->
                 timeouts s' !! h2 = timeouts pollingButton !! h2)
  /\ size (timeouts s') = 2%nat.
Proof.
  apply (invisible_menus_are_skipped pollingButton 1%nat
           (mkTimeout CheckForEmptyMenu 100)
           [mkMenu 0 40 0 true (Some false); mkMenu 160 0 0 false None]
           reachable_pollingButton).
  - vm_compute. reflexivity.
  - reflexivity.
  - constructor; [left; discriminate |].
    constructor; [right; discriminate |]. constructor.
Defined.

(** X18: once shown, the warning stays through clicks and timeouts: only
    an option selection hides it.  An option selection always hides it
    and leaves a running poll, its timeouts and the flag alone. *)
Theorem warning_stays_until_option_selected (e : ButtonEvent)
    (s : ButtonState) :
  (e <> OptionSelected -> showNoTargetsWarning s = true ->
   showNoTargetsWarning (buttonStep e s) = true)
  /\ showNoTargetsWarning (buttonStep OptionSelected s) = false
  /\ isCheckingMenu (buttonStep OptionSelected s) = isCheckingMenu s
  /\ timeouts (buttonStep OptionSelected s) = timeouts s
  /\ checkTimeoutRef (buttonStep OptionSelected s) = checkTimeoutRef s.
Proof.
  split.
  - intros Hne Hon.
    destruct (commit_frame (isCheckingMenu s) (handle e s)) as (Hw & _).
    fold (buttonStep e s) in Hw. rewrite Hw. clear Hw.
    destruct e as [disabled | | h menus]; [| contradiction |]; cbn [handle].
    + unfold handleWrapperClick. destruct disabled, s; exact Hon.
    + unfold fireTimeout. destruct (timeouts s !! h) as [[[] d] |];
        [| | exact Hon]; cbn [callback].
      * destruct (List.find menuVisible menus) as [menu |] eqn:Hfind.
        -- destruct (checkForEmptyMenu_found menus menu (clearTimeout h s) Hfind)
             as (_ & Hw & _).
           rewrite Hw. destruct (Nat.eqb (menuItems menu) 0); [reflexivity |].
           destruct s; exact Hon.
        -- unfold checkForEmptyMenu. rewrite Hfind.
           destruct s as [w c [r |] st tm nx ck bc]; exact Hon.
      * unfold stopChecking.
        destruct s as [w c [r |] st tm nx ck bc]; exact Hon.
  - destruct s as [w c r st tm nx ck bc]. unfold buttonStep, commit. cbn.
    rewrite eqb_reflx. repeat split.
Qed.

(** X19: the probe never leaks a timeout.  In every state the button can
    reach, no timeout is pending and no cleanup is registered while the
    flag is cleared; while the flag is set the stop timeout is pending,
    and the only other pending timeout, if there is one, is the check
    whose handle is in [checkTimeoutRef].  So never more than two
    timeouts are pending, and every pending handle is older than the
    next one to be handed out. *)
Theorem probe_never_leaks_timeouts (s : ButtonState) :
  reachable s ->
  (isCheckingMenu s = false -> timeouts s = ∅ /\ stopTimeout s = None)
  /\ (isCheckingMenu s = true ->
      exists h2 d2,
        stopTimeout s = Some h2
        /\ timeouts s !! h2 = Some (mkTimeout StopChecking d2)
        /\ forall h tm, timeouts s !! h = Some tm -> h <> h2 ->
                        checkTimeoutRef s = Some h
                        /\ callback tm = CheckForEmptyMenu)
  /\ (size (timeouts s) <= 2)%nat
  /\ (forall h, is_Some (timeouts s !! h) -> (h < nextTimeout s)%nat).
Proof.
  intros Hreach. apply reachable_pollInvariant in Hreach.
  unfold pollInvariant in Hreach. destruct (isCheckingMenu s).
  - destruct Hreach
      as (h1 & h2 & d2 & Hne & Hlt1 & Hlt2 & Hr & Hst & [[d1 ->] | ->]).
    + split; [discriminate |]. split; [| split].
      * intros _. exists h2, d2. split; [exact Hst |].
        split; [rewrite lookup_insert_ne by assumption;
                apply lookup_singleton_eq |].
        intros h tm Hl Hn2.
        destruct (decide (h1 = h)) as [<- | Hn1].
        -- rewrite lookup_insert_eq in Hl. injection Hl as <-.
           split; [exact Hr | reflexivity].
        -- rewrite lookup_insert_ne in Hl by assumption.
           apply lookup_singleton_Some in Hl as [-> _]. contradiction.
      * rewrite map_size_insert_None by (apply lookup_singleton_ne; congruence).
        rewrite map_size_singleton. lia.
      * intros h [tm Hl].
        destruct (decide (h1 = h)) as [<- | Hn]; [exact Hlt1 |].
        rewrite lookup_insert_ne in Hl by assumption.
        apply lookup_singleton_Some in Hl as [<- _]. exact Hlt2.
    + split; [discriminate |]. split; [| split].
      * intros _. exists h2, d2. split; [exact Hst |].
        split; [apply lookup_singleton_eq |].
        intros h tm Hl Hn2.
        apply lookup_singleton_Some in Hl as [-> _]. contradiction.
      * rewrite map_size_singleton. lia.
      * intros h [tm Hl].
        apply lookup_singleton_Some in Hl as [<- _]. exact Hlt2.
  - destruct Hreach as [-> ->]. split; [intros _; split; reflexivity |].
    split; [discriminate |]. split; [rewrite map_size_empty; lia |].
    intros h [tm Hl]. rewrite lookup_empty in Hl. discriminate.
Qed.

Lemma probe_never_leaks_timeouts_witness :
  (isCheckingMenu pollingButton = false ->
   timeouts pollingButton = ∅ /\ stopTimeout pollingButton = None)
  /\ (isCheckingMenu pollingButton = true ->
      exists h2 d2,
        stopTimeout pollingButton = Some h2
        /\ timeouts pollingButton !! h2 = Some (mkTimeout StopChecking d2)
        /\ forall h tm, timeouts pollingButton !! h = Some tm -> h <> h2 ->
                        checkTimeoutRef pollingButton = Some h
                        /\ callback tm = CheckForEmptyMenu)
  /\ (size (timeouts pollingButton) <= 2)%nat
  /\ (forall h, is_Some (timeouts pollingButton !! h) ->
                (h < nextTimeout pollingButton)%nat).
Proof.
  apply (probe_never_leaks_timeouts pollingButton reachable_pollingButton).
Defined.

(** X20: a click on a disabled button (a job pending, or no train or val
    samples yet) is ignored by the probe: no poll starts, so no warning
    can come of it, and the panel is untouched. *)
Theorem disabled_button_click_is_ignored (j : Job) (b : ButtonState)
    (p : PanelState) :
  buttonDisabled j p = true -> clickButton j (b, p) = (b, p).
Proof.
  intros Hdis. unfold clickButton. rewrite Hdis.
  unfold buttonStep, commit. cbn [handle]. unfold handleWrapperClick.
  cbn [negb]. rewrite eqb_reflx. reflexivity.
Qed.

Lemma disabled_button_click_is_ignored_witness :
  clickButton Train (initialButton, initialPanel)
  = (initialButton, initialPanel).
Proof.
  apply (disabled_button_click_is_ignored Train initialButton initialPanel).
  reflexivity.
Defined.

(** ** The probe: a poll runs a bounded number of checks *)

Lemma div50_step (a b : nat) :
  (a + 50 <= b)%nat -> (S (a / 50) <= b / 50)%nat.
Proof.
  intros Hle. replace (S (a / 50)) with ((a + 1 * 50) / 50)%nat.
  - apply Nat.Div0.div_le_mono. lia.
  - rewrite Nat.div_add by lia. lia.
Qed.

Lemma div50_bound (a : nat) : (a <= 399)%nat -> (a / 50 <= 7)%nat.
Proof.
  intros Hle. change 7%nat with (399 / 50)%nat.
  apply Nat.Div0.div_le_mono. exact Hle.
Qed.

(** What a timeout that may fire at time [t] tells: it is pending, due,
    and no pending timeout comes before it. *)
Lemma feasible_fire (t h : nat) (menus : list Menu) (s : ButtonState) :
  feasible t (TimeoutFires h menus) s = true ->
  exists tm,
    timeouts s !! h = Some tm /\ (due tm <= t)%nat
    /\ forall h' tm', timeouts s !! h' = Some tm' ->
                      firesBefore h tm h' tm' = true.
Proof.
  unfold feasible. intros Hf. apply andb_true_iff in Hf as [_ Hf].
  destruct (timeouts s !! h) as [tm |]; [| discriminate].
  apply andb_true_iff in Hf as [Hdue Hall].
  exists tm. split; [reflexivity |]. split; [apply Nat.leb_le, Hdue |].
  intros h' tm' Hl. rewrite forallb_forall in Hall.
  apply (Hall (h', tm')). apply list_elem_of_In, elem_of_map_to_list, Hl.
Qed.

Lemma pollBudget_running (w : bool) (h1 h2 d1 d2 nx ck bc : nat) :
  h1 <> h2 ->
  pollBudget
    (mkButton w true (Some h1) (Some h2)
       (<[h1 := mkTimeout CheckForEmptyMenu d1]>
          {[h2 := mkTimeout StopChecking d2]}) nx ck bc)
  = if (d1 <? d2)%nat then S ((d2 - d1 - 1) / 50) else 0%nat.
Proof.
  intros Hne. unfold pollBudget, pollTimers.
  cbn [isCheckingMenu checkTimeoutRef stopTimeout timeouts].
  rewrite lookup_insert_eq, lookup_insert_ne by assumption.
  rewrite lookup_singleton_eq. reflexivity.
Qed.

Lemma pollBudget_idle (s : ButtonState) :
  isCheckingMenu s = false -> pollBudget s = 0%nat.
Proof. intros Hidle. unfold pollBudget. rewrite Hidle. reflexivity. Qed.

Lemma pollBudget_no_check (s : ButtonState) (h1 : nat) :
  checkTimeoutRef s = Some h1 -> timeouts s !! h1 = None ->
  pollBudget s = 0%nat.
Proof.
  intros Hr Hl. unfold pollBudget, pollTimers. rewrite Hr, Hl.
  destruct (isCheckingMenu s), (stopTimeout s); reflexivity.
Qed.

Lemma pollSchedule_initial : pollSchedule initialButton.
Proof. split; reflexivity. Qed.

(** One timed step keeps the schedule, and unless it is a click on an
    enabled button, a run of [checkForEmptyMenu] costs one unit of the
    budget and nothing adds to it. *)
Lemma timed_step_schedule (te : nat * ButtonEvent) (s s' : ButtonState) :
  pollSchedule s -> timedStep te s = Some s' ->
  pollSchedule s'
  /\ (startsNoPoll te = true ->
      ((if runsCheck (snd te) s then 1 else 0) + pollBudget s'
       <= pollBudget s)%nat).
Proof.
  intros Hinv Hstep. destruct te as [t e]. unfold timedStep in Hstep.
  destruct (feasible t e s) eqn:Hf; [| discriminate]. injection Hstep as <-.
  cbn [snd]. destruct e as [disabled | | h menus]; cbn [runsCheck].
  - (* a click *)
    destruct s as [w c r st tm nx ck bc]. unfold pollSchedule in Hinv.
    cbn [isCheckingMenu] in Hinv. destruct c.
    + rewrite click_while_checking by reflexivity.
      split; [exact Hinv | intros _; apply Nat.le_refl].
    + destruct Hinv as [Htm Hst]. cbn in Htm, Hst. subst tm st.
      destruct disabled.
      * split; [split; reflexivity | intros _; apply Nat.le_refl].
      * split; [| discriminate].
        unfold pollSchedule. cbn.
        exists nx, (S nx), (t + 500)%nat.
        split; [lia |]. split; [lia |]. split; [lia |].
        split; [reflexivity |]. split; [reflexivity |].
        left. exists (t + 100)%nat.
        split; [rewrite insert_insert_ne by lia; reflexivity |].
        split; [intros _ |]; lia.
  - (* an option selection *)
    destruct s as [w c r st tm nx ck bc].
    unfold buttonStep, commit. cbn. rewrite eqb_reflx.
    split; [exact Hinv | intros _; apply Nat.le_refl].
  - (* a timeout *)
    destruct (feasible_fire t h menus s Hf) as (tm0 & Hl & Hdue & Hfirst).
    destruct s as [w c r st tm nx ck bc]. unfold pollSchedule in Hinv.
    cbn [isCheckingMenu timeouts nextTimeout checkTimeoutRef stopTimeout]
      in Hinv, Hl, Hfirst.
    destruct c.
    2:{ destruct Hinv as [-> _]. rewrite lookup_empty in Hl. discriminate. }
    destruct Hinv as (h1 & h2 & d2 & Hne & Hlt1 & Hlt2 & -> & -> & Hshape).
    unfold withClock.
    cbn [showNoTargetsWarning isCheckingMenu checkTimeoutRef
           stopTimeout timeouts nextTimeout clock backdropClicks].
    unfold buttonStep, handle, fireTimeout.
    cbn [timeouts isCheckingMenu]. rewrite Hl.
    destruct Hshape as [(d1 & -> & Hord & Hspan) | ->].
    + destruct (decide (h = h1)) as [-> | Hn1].
      * rewrite lookup_insert_eq in Hl. injection Hl as <-.
        cbn [callback due] in *.
        assert (Hd : (d1 < d2)%nat).
        { specialize (Hfirst h2 (mkTimeout StopChecking d2)).
          rewrite lookup_insert_ne, lookup_singleton_eq in Hfirst by assumption.
          specialize (Hfirst eq_refl). unfold firesBefore in Hfirst.
          cbn [due] in Hfirst.
          apply orb_true_iff in Hfirst as [Hlt | Heq].
          - apply Nat.ltb_lt, Hlt.
          - apply andb_true_iff in Heq as [Heq Hle].
            apply Nat.eqb_eq in Heq. apply Nat.leb_le in Hle. lia. }
        rewrite (pollBudget_running w h1 h2 d1 d2 nx ck bc Hne).
        apply Nat.ltb_lt in Hd as Hdb. rewrite Hdb.
        unfold clearTimeout. cbn [timeouts nextTimeout].
        rewrite delete_insert_eq, delete_singleton_ne by congruence.
        destruct (List.find menuVisible menus) as [menu |] eqn:Hfind.
        -- match goal with
           | |- context [commit true (checkForEmptyMenu menus ?s0)] =>
               destruct (checkForEmptyMenu_found menus menu s0 Hfind)
                 as (Hc & _ & _ & Hr & Hst & Htm & Hnx & _);
               destruct (commit_after_callback (checkForEmptyMenu menus s0)
                           h2 (mkTimeout StopChecking d2) Hst Htm)
                 as [Hstay Hend]
           end.
           { intros h1' Hr'. rewrite Hr in Hr'. cbn in Hr'. congruence. }
           destruct (staysChecking menu).
           ++ rewrite (Hstay Hc). split.
              ** unfold pollSchedule. rewrite Hc.
                 exists h1, h2, d2. rewrite Hr, Hst, Htm, Hnx. cbn.
                 repeat (split; [assumption || reflexivity |]).
                 right. reflexivity.
              ** intros _. rewrite (pollBudget_no_check _ h1); [lia | exact Hr |].
                 rewrite Htm. cbn. apply lookup_singleton_ne. congruence.
           ++ destruct (Hend Hc) as (Hc' & Htm' & Hst' & _). split.
              ** unfold pollSchedule. rewrite Hc'. split; assumption.
              ** intros _. rewrite (pollBudget_idle _ Hc'). lia.
        -- assert (Hnx : nx <> h2) by lia.
           unfold checkForEmptyMenu. rewrite Hfind.
           match goal with
           | |- pollSchedule ?x /\ _ =>
               change x with
                 (mkButton w true (Some nx) (Some h2)
                    (<[nx := mkTimeout CheckForEmptyMenu (t + 50)]>
                       {[h2 := mkTimeout StopChecking d2]}) (S nx) t bc)
           end.
           split.
           ++ unfold pollSchedule. cbn. exists nx, h2, d2.
              split; [exact Hnx |]. split; [lia |]. split; [lia |].
              split; [reflexivity |]. split; [reflexivity |].
              left. exists (t + 50)%nat.
              split; [reflexivity |]. split; [intros; lia | lia].
           ++ intros _.
              rewrite (pollBudget_running w nx h2 (t + 50) d2 (S nx) t bc Hnx).
              destruct (Nat.ltb_spec (t + 50) d2) as [Hlt | Hge]; [| lia].
              apply le_n_S. apply div50_step. lia.
      * rewrite lookup_insert_ne in Hl by congruence.
        apply lookup_singleton_Some in Hl as [-> <-]. cbn [callback].
        unfold clearTimeout, stopChecking, commit. cbn.
        rewrite delete_insert_ne by congruence.
        rewrite delete_singleton_eq, delete_insert_eq, !delete_empty.
        split; [split; reflexivity |]. intros _. cbn. lia.
    + apply lookup_singleton_Some in Hl as [-> <-]. cbn [callback].
      unfold clearTimeout, stopChecking, commit. cbn.
      rewrite delete_singleton_eq, !delete_empty.
      split; [split; reflexivity |]. intros _. cbn. lia.
Qed.

Lemma reachable_pollSchedule (s : ButtonState) :
  reachable s -> pollSchedule s.
Proof.
  induction 1 as [| te s s' _ IH Hstep].
  - exact pollSchedule_initial.
  - exact (proj1 (timed_step_schedule te s s' IH Hstep)).
Qed.

Lemma pollBudget_le_8 (s : ButtonState) :
  pollSchedule s -> (pollBudget s <= 8)%nat.
Proof.
  intros Hinv. destruct s as [w c r st tm nx ck bc].
  unfold pollSchedule in Hinv. cbn [isCheckingMenu] in Hinv. destruct c.
  - destruct Hinv
      as (h1 & h2 & d2 & Hne & _ & _ & Hr & Hst & [(d1 & Htm & _ & Hspan) | Htm]);
      cbn in Hr, Hst, Htm; subst r st tm.
    + rewrite pollBudget_running by assumption.
      destruct (d1 <? d2)%nat; [| lia].
      apply le_n_S. apply div50_bound. lia.
    + rewrite (pollBudget_no_check _ h1); [lia | reflexivity |].
      cbn. apply lookup_singleton_ne. congruence.
  - rewrite pollBudget_idle by reflexivity. lia.
Qed.

Lemma checkRuns_within_budget (tr : list (nat * ButtonEvent)) :
  forall s, pollSchedule s -> forallb startsNoPoll tr = true ->
            (checkRuns tr s <= pollBudget s)%nat.
Proof.
  induction tr as [| te tr IH]; intros s Hinv Hquiet; [cbn; lia |].
  cbn [forallb] in Hquiet. apply andb_true_iff in Hquiet as [Hte Htr].
  cbn [checkRuns]. destruct (timedStep te s) as [s' |] eqn:Hstep; [| lia].
  destruct (timed_step_schedule te s s' Hinv Hstep) as [Hinv' Hcost].
  specialize (Hcost Hte). specialize (IH s' Hinv' Htr). lia.
Qed.

(** X21: polling is bounded.  From any state the button can reach, along
    any timed trace without a click on the enabled button (which would
    start another poll), [checkForEmptyMenu] runs at most [pollBudget]
    times, and that budget is never more than 8: the checks of one poll
    are due at least 50 ms apart, from 100 ms on and before the stop
    timeout at 500 ms. *)
Theorem poll_runs_at_most_eight_checks (s : ButtonState)
    (tr : list (nat * ButtonEvent)) :
  reachable s ->
  forallb startsNoPoll tr = true ->
  (checkRuns tr s <= pollBudget s)%nat /\ (pollBudget s <= 8)%nat.
Proof.
  intros Hreach Hquiet. apply reachable_pollSchedule in Hreach.
  split; [apply checkRuns_within_budget; assumption |].
  apply pollBudget_le_8, Hreach.
Qed.

Lemma poll_runs_at_most_eight_checks_witness :
  let tr := [(100%nat, TimeoutFires 1 []); (150%nat, TimeoutFires 3 []);
             (200%nat, TimeoutFires 4 []); (250%nat, TimeoutFires 5 []);
             (300%nat, TimeoutFires 6 []); (350%nat, TimeoutFires 7 []);
             (400%nat, TimeoutFires 8 []); (450%nat, TimeoutFires 9 []);
             (470%nat, WrapperClick true); (500%nat, TimeoutFires 2 [])] in
  (checkRuns tr pollingButton <= pollBudget pollingButton)%nat
  /\ (pollBudget pollingButton <= 8)%nat.
Proof.
  apply (poll_runs_at_most_eight_checks pollingButton
           [(100%nat, TimeoutFires 1 []); (150%nat, TimeoutFires 3 []);
            (200%nat, TimeoutFires 4 []); (250%nat, TimeoutFires 5 []);
            (300%nat, TimeoutFires 6 []); (350%nat, TimeoutFires 7 []);
            (400%nat, TimeoutFires 8 []); (450%nat, TimeoutFires 9 []);
            (470%nat, WrapperClick true); (500%nat, TimeoutFires 2 [])]
           reachable_pollingButton).
  reflexivity.
Defined.

(** The bound is reached: a poll that never sees a visible menu runs
    eight checks, at 100, 150, ..., 450 ms. *)
Example eight_checks_happen :
  checkRuns [(100%nat, TimeoutFires 1 []); (150%nat, TimeoutFires 3 []);
             (200%nat, TimeoutFires 4 []); (250%nat, TimeoutFires 5 []);
             (300%nat, TimeoutFires 6 []); (350%nat, TimeoutFires 7 []);
             (400%nat, TimeoutFires 8 []); (450%nat, TimeoutFires 9 []);
             (500%nat, TimeoutFires 2 [])] pollingButton = 8%nat
  /\ pollBudget pollingButton = 8%nat.
Proof. split; vm_compute; reflexivity. Qed.

(** ** Polling the tag counts *)

Lemma option_string_eqb_eq (a b : option string) :
  option_string_eqb a b = true <-> a = b.
Proof.
  destruct a as [x |], b as [y |]; cbn; try (split; congruence).
  rewrite String.eqb_eq. split; congruence.
Qed.

Lemma pollerInvariant_mount (d : option string) :
  pollerInvariant (mountPoller d).
Proof.
  destruct d as [name |]; cbn.
  - exists 1%nat. split; [reflexivity |]. split; [| lia].
    apply union_empty_r_L.
  - split; reflexivity.
Qed.

Lemma pollerInvariant_step (e : PollerEvent) (s : PollerState) :
  pollerInvariant s -> pollerInvariant (pollerStep e s).
Proof.
  intros Hinv. destruct e as [d | h | result]; cbn [pollerStep].
  - destruct (option_string_eqb d (datasetName s)); [exact Hinv |].
    destruct s as [name cl ivs nx ex res]. unfold pollerInvariant in Hinv.
    cbn [datasetName pollCleanup pollIntervals nextPollHandle] in Hinv.
    assert (Hclean : pollIntervals (pollerCleanup (mkPoller name cl ivs nx ex res)) = ∅).
    { destruct name as [n |].
      - destruct Hinv as (h & -> & -> & _). cbn. apply difference_diag_L.
      - destruct Hinv as [-> ->]. reflexivity. }
    unfold pollerEffect.
    cbn [datasetName pollCleanup pollIntervals nextPollHandle executions
           executorResult].
    rewrite Hclean. destruct d as [n' |]; cbn.
    + eexists. split; [reflexivity |]. split; [apply union_empty_r_L |].
      destruct cl; cbn; lia.
    + split; reflexivity.
  - destruct (decide (h ∈ pollIntervals s)); [| exact Hinv].
    destruct s; exact Hinv.
  - destruct s; exact Hinv.
Qed.

Lemma pollerInvariant_run (tr : list PollerEvent) :
  forall s, pollerInvariant s -> pollerInvariant (pollerRun tr s).
Proof.
  induction tr as [| e tr IH]; intros s Hinv; [exact Hinv |].
  change (pollerRun (e :: tr) s) with (pollerRun tr (pollerStep e s)).
  apply IH, pollerInvariant_step, Hinv.
Qed.

(** X22: the tag-count poller never runs two intervals and never polls
    without a dataset: after any sequence of dataset changes, interval
    ticks and operator results, exactly one 2000 ms interval runs when a
    dataset is loaded, it is the one the effect's cleanup will clear,
    and none runs when no dataset is loaded. *)
Theorem poller_runs_one_interval_per_dataset (d : option string)
    (tr : list PollerEvent) :
  let s := pollerRun tr (mountPoller d) in
  size (pollIntervals s)
  = match datasetName s with Some _ => 1%nat | None => 0%nat end
  /\ (forall h, h ∈ pollIntervals s -> pollCleanup s = Some h)
  /\ (datasetName s = None -> pollCleanup s = None).
Proof.
  intros s.
  pose proof (pollerInvariant_run tr _ (pollerInvariant_mount d)) as Hinv.
  fold s in Hinv. unfold pollerInvariant in Hinv.
  destruct (datasetName s).
  - destruct Hinv as (h & Hcl & Hiv & _). rewrite Hiv, Hcl.
    split; [apply size_singleton |]. split; [| discriminate].
    intros h' Hin. apply elem_of_singleton in Hin. congruence.
  - destruct Hinv as [Hcl Hiv]. rewrite Hiv.
    split; [apply size_empty |]. split; [| intros _; exact Hcl].
    intros h Hin. apply elem_of_empty in Hin. contradiction.
Qed.

(** X23: switching to a dataset of another name fetches the counts once
    at once and stops the old interval for good: a late tick of the old
    handle requests nothing.  A tick of the running interval requests
    the counts exactly once, and a change that keeps the name does
    nothing at all. *)
Theorem poller_dataset_switch (d : option string) (tr : list PollerEvent)
    (name : string) :
  let s := pollerRun tr (mountPoller d) in
  datasetName s <> Some name ->
  let s' := pollerStep (DatasetChanged (Some name)) s in
  executions s' = S (executions s)
  /\ datasetName s' = Some name
  /\ (forall h, pollCleanup s = Some h -> pollerStep (PollTick h) s' = s')
  /\ (forall h, pollCleanup s' = Some h ->
                executions (pollerStep (PollTick h) s') = S (executions s'))
  /\ pollerStep (DatasetChanged (Some name)) s' = s'.
Proof.
  intros s Hname s'.
  pose proof (pollerInvariant_run tr _ (pollerInvariant_mount d)) as Hinv.
  fold s in Hinv.
  pose proof (pollerInvariant_step (DatasetChanged (Some name)) s Hinv) as Hinv'.
  fold s' in Hinv'.
  assert (Hneq : option_string_eqb (Some name) (datasetName s) = false).
  { destruct (option_string_eqb (Some name) (datasetName s)) eqn:E;
      [| reflexivity]. apply option_string_eqb_eq in E. congruence. }
  assert (Hs' : s' = pollerEffect
                  (mkPoller (Some name) (pollCleanup (pollerCleanup s))
                     (pollIntervals (pollerCleanup s))
                     (nextPollHandle (pollerCleanup s))
                     (executions (pollerCleanup s))
                     (executorResult (pollerCleanup s)))).
  { subst s'. cbn [pollerStep]. rewrite Hneq. reflexivity. }
  assert (Hex : executions s' = S (executions s)
                /\ datasetName s' = Some name
                /\ pollCleanup s' = Some (nextPollHandle s)
                /\ pollIntervals s' = {[nextPollHandle s]}).
  { unfold pollerInvariant in Hinv. rewrite Hs'.
    destruct s as [nm cl ivs nx ex res]. cbn in Hinv |- *.
    destruct nm as [n |].
    - destruct Hinv as (h & -> & -> & _). cbn.
      repeat split. rewrite difference_diag_L. apply union_empty_r_L.
    - destruct Hinv as [-> ->]. cbn. repeat split. apply union_empty_r_L. }
  destruct Hex as (Hex & Hnm & Hcl' & Hiv').
  split; [exact Hex |]. split; [exact Hnm |]. split; [| split].
  - intros h Hcl. cbn [pollerStep].
    destruct (decide (h ∈ pollIntervals s')) as [Hin | Hout]; [| reflexivity].
    exfalso. rewrite Hiv' in Hin. apply elem_of_singleton in Hin.
    unfold pollerInvariant in Hinv. destruct (datasetName s).
    + destruct Hinv as (h0 & Hcl0 & _ & Hlt). rewrite Hcl in Hcl0.
      injection Hcl0 as <-. lia.
    + destruct Hinv as [Hcl0 _]. congruence.
  - intros h Hcl. rewrite Hcl' in Hcl. injection Hcl as <-.
    cbn [pollerStep]. rewrite Hiv'.
    destruct (decide (nextPollHandle s ∈ ({[nextPollHandle s]} : gset nat)))
      as [_ | Hout]; [reflexivity |].
    exfalso. apply Hout, elem_of_singleton. reflexivity.
  - cbn [pollerStep]. rewrite Hnm. cbn [option_string_eqb].
    rewrite String.eqb_refl. reflexivity.
Qed.

Lemma poller_dataset_switch_witness :
  let s := pollerRun [PollTick 1] (mountPoller (Some "quickstart")) in
  let s' := pollerStep (DatasetChanged (Some "coco")) s in
  executions s' = S (executions s)
  /\ datasetName s' = Some "coco"
  /\ (forall h, pollCleanup s = Some h -> pollerStep (PollTick h) s' = s')
  /\ (forall h, pollCleanup s' = Some h ->
                executions (pollerStep (PollTick h) s') = S (executions s'))
  /\ pollerStep (DatasetChanged (Some "coco")) s' = s'.
Proof.
  apply (poller_dataset_switch (Some "quickstart") [PollTick 1] "coco").
  discriminate.
Defined.

(** X24: tags the operator's answer does not list count as zero.  With
    no answer yet, an answer without [tag_counts], or one that lists
    neither train nor val, and a non-negative total, every sample is
    untagged, the panel is not ready to train and the training button is
    disabled. *)
Theorem missing_tag_counts_mean_zero (result : option ExecutorResult)
    (p : PanelState) :
  tagCountsOf result !! "train" = None ->
  tagCountsOf result !! "val" = None ->
  0 <= or_zero (totalSampleCount p) ->
  let p' := setTagCounts (tagCountsOf result) p in
  panelStats p'
  = {| train_count := 0; val_count := 0; both_count := 0;
       total_count := or_zero (totalSampleCount p);
       untagged_count := or_zero (totalSampleCount p) |}
  /\ isReadyToTrain (panelStats p') = false
  /\ buttonDisabled Train p' = true.
Proof.
  intros Htrain Hval Htotal p'.
  assert (Hst : panelStats p'
                = {| train_count := 0; val_count := 0; both_count := 0;
                     total_count := or_zero (totalSampleCount p);
                     untagged_count := or_zero (totalSampleCount p) |}).
  { subst p'. unfold panelStats, tagStats.
    cbn [tagCounts totalSampleCount setTagCounts].
    rewrite Htrain, Hval. unfold or_zero in *. simpl default.
    f_equal; lia. }
  split; [exact Hst |].
  assert (Hready : isReadyToTrain (panelStats p') = false)
    by (rewrite Hst; reflexivity).
  split; [exact Hready |].
  cbn [buttonDisabled]. rewrite Hready. apply orb_true_r.
Qed.

Lemma missing_tag_counts_mean_zero_witness :
  let p' := setTagCounts (tagCountsOf None) initialPanel in
  panelStats p'
  = {| train_count := 0; val_count := 0; both_count := 0;
       total_count := or_zero (totalSampleCount initialPanel);
       untagged_count := or_zero (totalSampleCount initialPanel) |}
  /\ isReadyToTrain (panelStats p') = false
  /\ buttonDisabled Train p' = true.
Proof.
  apply (missing_tag_counts_mean_zero None initialPanel).
  - reflexivity.
  - reflexivity.
  - simpl. lia.
Defined.

(** ** The earlier version of the panel *)

Lemma fromEntries_from (entries : list (string * Z)) :
  forall (m : gmap string Z) (k : string),
    Forall (fun e => fst e <> k) entries ->
    fold_left (fun m e => <[fst e := snd e]> m) entries m !! k = m !! k.
Proof.
  induction entries as [| e entries IH]; intros m k Hall; [reflexivity |].
  apply Forall_cons in Hall as [Hne Hall]. cbn [fold_left].
  rewrite IH by assumption. apply lookup_insert_ne. exact Hne.
Qed.

Lemma fromEntries_last (before after : list (string * Z)) (k : string) (v : Z) :
  Forall (fun e => fst e <> k) after ->
  Legacy.fromEntries (before ++ (k, v) :: after) !! k = Some v.
Proof.
  intros Hafter. unfold Legacy.fromEntries.
  rewrite fold_left_app. cbn [fold_left fst snd].
  rewrite fromEntries_from by assumption. apply lookup_insert_eq.
Qed.

Lemma entries_avoid (vs : list Legacy.AggregationValue) (t : string) :
  Forall (fun v => Legacy.value v <> t) vs ->
  Forall (fun e : string * Z => fst e <> t)
    (map (fun v => (Legacy.value v, Legacy.count v)) vs).
Proof.
  induction 1 as [| v vs Hv _ IH]; cbn [map]; constructor; assumption.
Qed.

(** X25: the selector turns a string aggregation into a dictionary in
    which each tag has the count of its last entry: an entry for tag [t]
    that no later entry repeats decides the count of [t]. *)
Theorem datasetTagCounts_last_entry_wins (data : Legacy.Aggregation)
    (before after : list Legacy.AggregationValue) (t : string) (c : Z) :
  Legacy.__typename data = "StringAggregation" ->
  Legacy.values data = (before ++ Legacy.mkValue t c :: after)%list ->
  Forall (fun v => Legacy.value v <> t) after ->
  Legacy.datasetTagCounts data !! t = Some c.
Proof.
  intros Htype Hvalues Hafter. unfold Legacy.datasetTagCounts.
  rewrite Htype, Hvalues. cbn [String.eqb Ascii.eqb Bool.eqb negb].
  rewrite map_app. cbn [map Legacy.value Legacy.count].
  apply fromEntries_last, entries_avoid, Hafter.
Qed.

Lemma datasetTagCounts_last_entry_wins_witness :
  Legacy.datasetTagCounts
    (Legacy.mkAggregation "StringAggregation"
       [Legacy.mkValue "train" 3; Legacy.mkValue "val" 4;
        Legacy.mkValue "train" 7]) !! "train" = Some 7.
Proof.
  apply (datasetTagCounts_last_entry_wins
           (Legacy.mkAggregation "StringAggregation"
              [Legacy.mkValue "train" 3; Legacy.mkValue "val" 4;
               Legacy.mkValue "train" 7])
           [Legacy.mkValue "train" 3; Legacy.mkValue "val" 4] [] "train" 7).
  - reflexivity.
  - reflexivity.
  - constructor.
Defined.

(** X26: an aggregation of any other type gives the empty dictionary,
    and a string aggregation gives no entry for a tag it does not list;
    either way [tagStats] reads that tag's count as 0. *)
Theorem datasetTagCounts_missing_tag (data : Legacy.Aggregation)
    (t : string) :
  Legacy.__typename data <> "StringAggregation"
  \/ Forall (fun v => Legacy.value v <> t) (Legacy.values data) ->
  Legacy.datasetTagCounts data !! t = None
  /\ or_zero (Legacy.datasetTagCounts data !! t) = 0
  /\ (Legacy.__typename data <> "StringAggregation" ->
      Legacy.datasetTagCounts data = ∅).
Proof.
  intros Hmiss.
  assert (Hnone : Legacy.datasetTagCounts data !! t = None).
  { unfold Legacy.datasetTagCounts.
    destruct (String.eqb_spec (Legacy.__typename data) "StringAggregation")
      as [Htype | Htype]; cbn [negb].
    - destruct Hmiss as [Hne | Hall]; [contradiction |].
      unfold Legacy.fromEntries. rewrite fromEntries_from.
      + apply lookup_empty.
      + apply entries_avoid, Hall.
    - apply lookup_empty. }
  split; [exact Hnone |]. split; [rewrite Hnone; reflexivity |].
  intros Htype. unfold Legacy.datasetTagCounts.
  destruct (String.eqb_spec (Legacy.__typename data) "StringAggregation");
    [contradiction | reflexivity].
Qed.

Lemma datasetTagCounts_missing_tag_witness :
  let data := Legacy.mkAggregation "CountAggregation" [] in
  Legacy.datasetTagCounts data !! "train" = None
  /\ or_zero (Legacy.datasetTagCounts data !! "train") = 0
  /\ (Legacy.__typename data <> "StringAggregation" ->
      Legacy.datasetTagCounts data = ∅).
Proof.
  apply (datasetTagCounts_missing_tag
           (Legacy.mkAggregation "CountAggregation" []) "train").
  left. discriminate.
Defined.

(** X27: in the earlier panel a submission always ends idle: whether
    the awaited operator call is fulfilled or rejected, the busy flag
    set before the call (which disables the button meanwhile) is cleared
    afterwards; a rejection is logged once, a fulfilment logs nothing,
    and the other job and the statistics are not touched. *)
Theorem legacy_submission_always_ends_idle (r : Legacy.Settled)
    (s : PanelState) :
  let t1 := Legacy.handleTrain_start s in
  let t2 := Legacy.handleTrain_settle r t1 in
  let a1 := Legacy.handleApplyModel_start s in
  let a2 := Legacy.handleApplyModel_settle r a1 in
  (buttonDisabled Train t1 = true /\ isTraining t2 = false
   /\ isApplying t2 = isApplying s /\ panelStats t2 = panelStats s
   /\ console t2
      = (console s ++ match r with
                      | Legacy.Fulfilled => []
                      | Legacy.Rejected error =>
                          [ConsoleError "Training failed:" error]
                      end)%list)
  /\ (buttonDisabled Apply a1 = true /\ isApplying a2 = false
      /\ isTraining a2 = isTraining s /\ panelStats a2 = panelStats s
      /\ console a2
         = (console s ++ match r with
                         | Legacy.Fulfilled => []
                         | Legacy.Rejected error =>
                             [ConsoleError "Model application failed:" error]
                         end)%list).
Proof.
  destruct r as [| error]; cbn; rewrite ?app_nil_r; repeat split.
Qed.

(** ** The button inside the panel, and a symmetry of the statistics *)

(** X28: no double submission.  Once the user has picked an execution
    option, the wrapper's warning is hidden, the job is busy and its
    button is disabled, so a further click on it changes nothing; a
    running poll keeps its timeouts. *)
Theorem option_selected_blocks_resubmission (j : Job) (opt : ExecutionOption)
    (b : ButtonState) (p : PanelState) :
  let bp := deliver j (OptionChosen opt) (b, p) in
  showNoTargetsWarning (fst bp) = false
  /\ timeouts (fst bp) = timeouts b
  /\ isCheckingMenu (fst bp) = isCheckingMenu b
  /\ busy j (snd bp) = true
  /\ buttonDisabled j (snd bp) = true
  /\ clickButton j bp = bp.
Proof.
  cbv zeta. cbn [deliver fst snd].
  assert (Hb : buttonStep OptionSelected b = setShowNoTargetsWarning false b).
  { unfold buttonStep, commit. cbn [handle]. unfold handleOptionSelected.
    destruct b; cbn. rewrite eqb_reflx. reflexivity. }
  assert (Hdis : buttonDisabled j (onOptionSelected j opt p) = true)
    by (destruct j; reflexivity).
  rewrite Hb. split; [destruct b; reflexivity |].
  split; [destruct b; reflexivity |]. split; [destruct b; reflexivity |].
  split; [destruct j; reflexivity |]. split; [exact Hdis |].
  unfold clickButton. rewrite Hdis.
  unfold buttonStep, commit. cbn [handle]. unfold handleWrapperClick.
  cbn [negb]. rewrite eqb_reflx. reflexivity.
Qed.

(** X29: the statistics treat the two tags alike: exchanging the train
    and the val count exchanges the two exclusive counts and leaves the
    overlap, the untagged count, the total and the readiness as they
    are. *)
Theorem tagStats_symmetric (train val : Z) (totalSampleCount : option Z) :
  let st := tagStats (snapshot train val) totalSampleCount in
  let st' := tagStats (snapshot val train) totalSampleCount in
  train_count st' = val_count st
  /\ val_count st' = train_count st
  /\ both_count st' = both_count st
  /\ untagged_count st' = untagged_count st
  /\ total_count st' = total_count st
  /\ isReadyToTrain st' = isReadyToTrain st.
Proof.
  intros st st'.
  assert (H : train_count st' = val_count st /\ val_count st' = train_count st
              /\ both_count st' = both_count st
              /\ untagged_count st' = untagged_count st).
  { subst st st'.
    rewrite !untagged_count_eq, !train_count_eq, !val_count_eq, !both_count_eq.
    rewrite !snapshot_train, !snapshot_val. unfold or_zero. simpl default.
    lia. }
  destruct H as (H1 & H2 & H3 & H4).
  repeat (split; [assumption || reflexivity |]).
  unfold isReadyToTrain. rewrite H1, H2, H3. apply andb_comm.
Qed.
